(** * azure_rm_managed_disk: the reconciliation core, embedded and verified

    Shallow embedding of
    [lib/ansible/modules/cloud/azure/azure_rm_managed_disk.py].

    The module object's attributes ([self.name], [self.state], ...) are a
    record; the dicts it builds and reads are records with one field per key;
    tag sets are finite maps.  The Azure client is an interface ([Cloud])
    over an abstract provider state; every call made through it is
    appended to a trace.  [self.fail] and uncaught Python exceptions are
    the two ways a run does not return. *)

From Stdlib Require Import ZArith String Ascii List Bool Lia.
From stdpp Require Import base option list strings gmap.

Local Open Scope string_scope.
Local Open Scope Z_scope.

(** ** Python values *)

(** [str.lower] on the ASCII range. *)
Definition lower_ascii (c : ascii) : ascii :=
  let n := nat_of_ascii c in
  if ((65 <=? n)%nat && (n <=? 90)%nat)%bool then ascii_of_nat (n + 32) else c.

Fixpoint lower (s : string) : string :=
  match s with
  | EmptyString => EmptyString
  | String c r => String (lower_ascii c) (lower r)
  end.

(** Truth value of an optional string: [None] and [''] are false. *)
Definition truthy_str (o : option string) : bool :=
  match o with
  | Some s => negb (String.eqb s "")
  | None => false
  end.

(** Truth value of an optional int: [None] and [0] are false. *)
Definition truthy_int (o : option Z) : bool :=
  match o with
  | Some n => negb (n =? 0)
  | None => false
  end.

(** Truth value of an optional object without [__bool__]/[__len__]. *)
Definition truthy_obj {A} (o : option A) : bool :=
  match o with
  | Some _ => true
  | None => false
  end.

(** [x == y] on optional values with decidable equality. *)
Definition py_eq {A} `{EqDecision A} (x y : A) : bool := bool_decide (x = y).

(** Exceptions the module can meet.  [CloudError] is the only class the
    module names in an [except] clause besides [Exception]. *)
Inductive PyExc :=
| CloudError (status_code : Z) (message : string)
| AttributeError (message : string)
| TypeError (message : string)
| OtherException (message : string).

Definition is_CloudError (e : PyExc) : bool :=
  match e with CloudError _ _ => true | _ => false end.

(** [str(exc)] *)
Definition str_exc (e : PyExc) : string :=
  match e with
  | CloudError _ m | AttributeError m | TypeError m | OtherException m => m
  end.

(** ** Module arguments *)

Inductive State := present | absent.
Inductive CreateOption := co_empty | co_import | co_copy.
Inductive OsType := linux | windows.
Inductive StorageAccountType :=
  Standard_LRS | StandardSSD_LRS | Premium_LRS | UltraSSD_LRS.

#[global] Instance State_eq_dec : EqDecision State.
Proof. solve_decision. Defined.
#[global] Instance CreateOption_eq_dec : EqDecision CreateOption.
Proof. solve_decision. Defined.
#[global] Instance OsType_eq_dec : EqDecision OsType.
Proof. solve_decision. Defined.
#[global] Instance StorageAccountType_eq_dec : EqDecision StorageAccountType.
Proof. solve_decision. Defined.

(** The choice strings of [module_arg_spec]. *)
Definition storage_account_type_str (s : StorageAccountType) : string :=
  match s with
  | Standard_LRS => "Standard_LRS"
  | StandardSSD_LRS => "StandardSSD_LRS"
  | Premium_LRS => "Premium_LRS"
  | UltraSSD_LRS => "UltraSSD_LRS"
  end.

(** The attributes [exec_module] copies from [kwargs], and [check_mode]. *)
Record Module := {
  self_resource_group : string;
  self_name : string;
  self_state : State;
  self_location : option string;
  self_storage_account_type : option StorageAccountType;
  self_create_option : option CreateOption;
  self_source_uri : option string;
  self_os_type : option OsType;
  self_disk_size_gb : option Z;
  self_managed_by : option string;
  self_tags : option (gmap string string);
  self_check_mode : bool
}.

Definition set_location (self : Module) (l : option string) : Module :=
  {| self_resource_group := self_resource_group self;
     self_name := self_name self;
     self_state := self_state self;
     self_location := l;
     self_storage_account_type := self_storage_account_type self;
     self_create_option := self_create_option self;
     self_source_uri := self_source_uri self;
     self_os_type := self_os_type self;
     self_disk_size_gb := self_disk_size_gb self;
     self_managed_by := self_managed_by self;
     self_tags := self_tags self;
     self_check_mode := self_check_mode self |}.

(** ** SDK models ([compute_models]) *)

Record DiskSku := { sku_name : string }.

Inductive DiskCreateOption := DCO_empty | DCO_import_enum | DCO_copy.

Inductive DiskCreateOptionTypes := DCOT_from_image | DCOT_empty | DCOT_attach.

#[global] Instance DiskSku_eq_dec : EqDecision DiskSku.
Proof. solve_decision. Defined.

(** The [creation_data] dict of the disk parameters; a key that is not
    set reads as [None]. *)
Record CreationDataParams := {
  cdp_create_option : DiskCreateOption;
  cdp_source_uri : option string;
  cdp_source_resource_id : option string
}.

(** The [disk_params] dict built by [generate_managed_disk_property];
    [dp_os_type] holds the string value of the SDK's
    [OperatingSystemTypes] member. *)
Record DiskParams := {
  dp_location : option string;
  dp_tags : option (gmap string string);
  dp_sku : option DiskSku;
  dp_disk_size_gb : option Z;
  dp_os_type : option string;
  dp_creation_data : CreationDataParams
}.

(** The disk object the provider returns. *)
Record CreationData := {
  cd_create_option : string;
  cd_source_uri : option string;
  cd_source_resource_id : option string
}.

Record Disk := {
  disk_id : string;
  disk_name : string;
  disk_location : string;
  disk_tags : option (gmap string string);
  disk_creation_data : CreationData;
  disk_disk_size_gb : option Z;
  disk_os_type : option string;
  disk_sku : option DiskSku;
  disk_managed_by : option string
}.

(** The dict returned by [managed_disk_to_dict]. *)
Record DiskDict := {
  d_id : string;
  d_name : string;
  d_location : string;
  d_tags : option (gmap string string);
  d_create_option : string;
  d_source_uri : option string;
  d_disk_size_gb : option Z;
  d_os_type : option string;
  d_storage_account_type : option string;
  d_managed_by : option string
}.

Record ManagedDiskParameters := {
  mdp_id : option string;
  mdp_storage_account_type : option string
}.

Record DataDisk := {
  lun : Z;
  dd_name : option string;
  dd_create_option : DiskCreateOptionTypes;
  dd_managed_disk : option ManagedDiskParameters
}.

(** A virtual machine, reduced to what the module reads and writes:
    [vm.storage_profile.data_disks] (which the SDK allows to be [None]). *)
Record VirtualMachine := {
  vm_id : string;
  data_disks : option (list DataDisk)
}.

Record ResourceGroup := { rg_location : string }.

(** ** Provider calls and the run monad *)

Inductive Call :=
| CallResourceGroupsGet (resource_group : string)
| CallDisksGet (resource_group name : string)
| CallDisksCreateOrUpdate (resource_group name : string) (parameter : DiskParams)
| CallDisksDelete (resource_group name : string)
| CallVirtualMachinesGet (resource_group name : string)
| CallVirtualMachinesCreateOrUpdate (resource_group name : string) (vm : VirtualMachine).

(** The calls that change provider state. *)
Definition mutating (c : Call) : bool :=
  match c with
  | CallDisksCreateOrUpdate _ _ _ | CallDisksDelete _ _
  | CallVirtualMachinesCreateOrUpdate _ _ _ => true
  | _ => false
  end.

Definition is_vm_write (c : Call) : bool :=
  match c with CallVirtualMachinesCreateOrUpdate _ _ _ => true | _ => false end.

Definition is_disk_write (c : Call) : bool :=
  match c with CallDisksCreateOrUpdate _ _ _ => true | _ => false end.

(** How a piece of the module ends: a value, [self.fail(msg)], or an
    exception nobody catches. *)
Inductive Outcome (A : Type) :=
| Ok (a : A)
| Fail (msg : string)
| Raise (e : PyExc).
Arguments Ok {A} a.
Arguments Fail {A} msg.
Arguments Raise {A} e.

(** The provider, as the module calls it.  A read answers with an object
    or with the exception it raises; a mutating call also returns the
    provider state it leaves behind, and includes the wait on its poller.
    [get_resource_group_result] is what the base class's
    [get_resource_group] comes to: the resource group, or the message it
    fails with. *)
Class Cloud (W : Type) := {
  get_resource_group_result : W -> string -> string + ResourceGroup;
  disks_get : W -> string -> string -> PyExc + Disk;
  disks_create_or_update : W -> string -> string -> DiskParams -> (PyExc + Disk) * W;
  disks_delete : W -> string -> string -> (PyExc + unit) * W;
  virtual_machines_get : W -> string -> string -> PyExc + VirtualMachine;
  virtual_machines_create_or_update :
    W -> string -> string -> VirtualMachine -> (PyExc + unit) * W
}.

(** What the module takes from [msrestazure] and from the SDK's enums:
    [parse_resource_id], whose answer is a dict, and the two members of
    [OperatingSystemTypes], a string-valued enum, by their string values. *)
Class Sdk := {
  parse_resource_id : option string -> gmap string string;
  OperatingSystemTypes_linux : string;
  OperatingSystemTypes_windows : string
}.

(** A run threads the provider state and the trace of calls issued. *)
Definition M (W A : Type) : Type := W * list Call -> Outcome A * (W * list Call).

Definition ret {W A} (a : A) : M W A := fun s => (Ok a, s).

Definition bind {W A B} (m : M W A) (k : A -> M W B) : M W B :=
  fun s =>
    match m s with
    | (Ok a, s') => k a s'
    | (Fail msg, s') => (Fail msg, s')
    | (Raise e, s') => (Raise e, s')
    end.

Definition fail {W A} (msg : string) : M W A := fun s => (Fail msg, s).
Definition raise {W A} (e : PyExc) : M W A := fun s => (Raise e, s).

(** Record a call in the trace. *)
Definition emit {W} (c : Call) : M W unit :=
  fun s => (Ok tt, (s.1, (s.2 ++ [c])%list)).

(** Read the provider state; replace it. *)
Definition get_world {W} : M W W := fun s => (Ok s.1, s).
Definition put_world {W} (w : W) : M W unit := fun s => (Ok tt, (w, s.2)).

Declare Scope run_scope.
Delimit Scope run_scope with run.
Notation "x <- m ;; k" := (bind m (fun x => k))
  (at level 100, m at next level, right associativity) : run_scope.
Notation "m ;;; k" := (bind m (fun _ => k))
  (at level 100, right associativity) : run_scope.

(** ** The module *)

(** [managed_disk_to_dict] *)
Definition managed_disk_to_dict (managed_disk : Disk) : DiskDict :=
  let create_data := disk_creation_data managed_disk in
  {| d_id := disk_id managed_disk;
     d_name := disk_name managed_disk;
     d_location := disk_location managed_disk;
     d_tags := disk_tags managed_disk;
     d_create_option := lower (cd_create_option create_data);
     d_source_uri :=
       if truthy_str (cd_source_uri create_data) then cd_source_uri create_data
       else cd_source_resource_id create_data;
     d_disk_size_gb := disk_disk_size_gb managed_disk;
     d_os_type :=
       if truthy_str (disk_os_type managed_disk)
       then lower <$> disk_os_type managed_disk else None;
     d_storage_account_type := sku_name <$> disk_sku managed_disk;
     d_managed_by := disk_managed_by managed_disk |}.

(** [is_different]: the structure of the retrieved disk against the
    parameters of the disk to be written. *)
Definition is_different (found_disk : DiskDict) (new_disk : DiskParams) : bool :=
  let resp := false in
  let resp :=
    if truthy_int (dp_disk_size_gb new_disk) then
      if negb (py_eq (d_disk_size_gb found_disk) (dp_disk_size_gb new_disk))
      then true else resp
    else resp in
  let resp :=
    if truthy_str (dp_os_type new_disk) then
      if negb (py_eq (d_os_type found_disk) (dp_os_type new_disk))
      then true else resp
    else resp in
  let resp :=
    if truthy_obj (dp_sku new_disk) then
      if negb (py_eq (d_storage_account_type found_disk) (sku_name <$> dp_sku new_disk))
      then true else resp
    else resp in
  let resp :=
    match dp_tags new_disk with
    | Some _ =>
        if negb (py_eq (d_tags found_disk) (dp_tags new_disk)) then true else resp
    | None => resp
    end in
  resp.

(** The value [exec_module] keeps in [result]: [None], a disk dict, or
    the placeholder [True]. *)
Inductive Result :=
| RNone
| RDict (d : DiskDict)
| RTrue.

Definition result_of (o : option DiskDict) : Result :=
  match o with Some d => RDict d | None => RNone end.

(** [disk.get(...)] on whatever [result] holds. *)
Definition disk_get {A} (disk : Result) (field : DiskDict -> A) : PyExc + A :=
  match disk with
  | RDict d => inr (field d)
  | RNone => inl (AttributeError "'NoneType' object has no attribute 'get'")
  | RTrue => inl (AttributeError "'bool' object has no attribute 'get'")
  end.

(** The comprehension of [detach]: keeps the entries whose lower-cased
    name differs from the disk's. *)
Fixpoint leftovers_of (data : list DataDisk) (disk : Result) : PyExc + list DataDisk :=
  match data with
  | [] => inr []
  | d :: rest =>
      match dd_name d with
      | None => inl (AttributeError "'NoneType' object has no attribute 'lower'")
      | Some n =>
          match disk_get disk d_name with
          | inl e => inl e
          | inr dn =>
              match leftovers_of rest disk with
              | inl e => inl e
              | inr l =>
                  inr (if negb (String.eqb (lower n) (lower dn)) then d :: l else l)
              end
          end
      end
  end.

(** [max(luns)] on a non-empty list. *)
Definition max_list (x : Z) (l : list Z) : Z := fold_left Z.max l x.

(** The results dict. *)
Record Results := {
  changed : bool;
  state : Result
}.

Section Module.
Context `{sdk : Sdk} {W : Type} `{cloud : Cloud W}.

Local Open Scope run_scope.
Abbreviation Run := (M W).

(** [get_resource_group] of the base class. *)
Definition get_resource_group (resource_group : string) : Run ResourceGroup :=
  emit (CallResourceGroupsGet resource_group) ;;;
  w <- get_world ;;
  match get_resource_group_result w resource_group with
  | inr rg => ret rg
  | inl msg => fail msg
  end.

(** [self.log] leaves no trace in the run: the handler just returns [None]. *)
Definition get_managed_disk (self : Module) : Run (option DiskDict) :=
  emit (CallDisksGet (self_resource_group self) (self_name self)) ;;;
  w <- get_world ;;
  match disks_get w (self_resource_group self) (self_name self) with
  | inr resp => ret (Some (managed_disk_to_dict resp))
  | inl (CloudError _ _) => ret None
  | inl e => raise e
  end.

Definition generate_managed_disk_property (self : Module) : DiskParams :=
  let creation_data :=
    match self_create_option self with
    | Some co_import =>
        {| cdp_create_option := DCO_import_enum;
           cdp_source_uri := self_source_uri self;
           cdp_source_resource_id := None |}
    | Some co_copy =>
        {| cdp_create_option := DCO_copy;
           cdp_source_uri := None;
           cdp_source_resource_id := self_source_uri self |}
    | _ =>
        {| cdp_create_option := DCO_empty;
           cdp_source_uri := None;
           cdp_source_resource_id := None |}
    end in
  {| dp_location := self_location self;
     dp_tags := self_tags self;
     dp_sku :=
       match self_storage_account_type self with
       | Some s => Some {| sku_name := storage_account_type_str s |}
       | None => None
       end;
     dp_disk_size_gb := self_disk_size_gb self;
     dp_os_type :=
       match self_os_type self with
       | Some linux => Some OperatingSystemTypes_linux
       | Some windows => Some OperatingSystemTypes_windows
       | None => None
       end;
     dp_creation_data := creation_data |}.

Definition create_or_update_managed_disk (self : Module) (parameter : DiskParams)
  : Run DiskDict :=
  emit (CallDisksCreateOrUpdate (self_resource_group self) (self_name self) parameter) ;;;
  w <- get_world ;;
  let '(r, w') :=
    disks_create_or_update w (self_resource_group self) (self_name self) parameter in
  put_world w' ;;;
  match r with
  | inr aux => ret (managed_disk_to_dict aux)
  | inl (CloudError _ _ as e) =>
      fail ("Error creating the managed disk: " +:+ str_exc e)
  | inl e => raise e
  end.

Definition delete_managed_disk (self : Module) : Run unit :=
  emit (CallDisksDelete (self_resource_group self) (self_name self)) ;;;
  w <- get_world ;;
  let '(r, w') := disks_delete w (self_resource_group self) (self_name self) in
  put_world w' ;;;
  match r with
  | inr u => ret u
  | inl (CloudError _ _ as e) =>
      fail ("Error deleting the managed disk: " +:+ str_exc e)
  | inl e => raise e
  end.

Definition _get_vm (self : Module) (name : string) : Run VirtualMachine :=
  emit (CallVirtualMachinesGet (self_resource_group self) name) ;;;
  w <- get_world ;;
  match virtual_machines_get w (self_resource_group self) name with
  | inr vm => ret vm
  | inl exc =>
      fail ("Error getting virtual machine " +:+ name +:+ " - " +:+ str_exc exc)
  end.

Definition _update_vm (self : Module) (name : string) (params : VirtualMachine)
  : Run unit :=
  emit (CallVirtualMachinesCreateOrUpdate (self_resource_group self) name params) ;;;
  w <- get_world ;;
  let '(r, w') :=
    virtual_machines_create_or_update w (self_resource_group self) name params in
  put_world w' ;;;
  match r with
  | inr u => ret u
  | inl exc =>
      fail ("Error updating virtual machine " +:+ name +:+ " - " +:+ str_exc exc)
  end.

(** The LUN [attach] gives the new entry. *)
Definition next_lun (vm : VirtualMachine) : Z :=
  let luns :=
    match data_disks vm with
    | Some (d :: l) => map lun (d :: l)
    | _ => []
    end in
  match luns with
  | x :: l => max_list x l + 1
  | [] => 0
  end.

Definition attach (self : Module) (vm_name : string) (disk : Result) : Run unit :=
  vm <- _get_vm self vm_name ;;
  let lun := next_lun vm in
  match disk_get disk d_id with
  | inl e => raise e
  | inr id =>
      match disk_get disk d_storage_account_type with
      | inl e => raise e
      | inr sat =>
          let params := {| mdp_id := Some id; mdp_storage_account_type := sat |} in
          let data_disk :=
            {| lun := lun; dd_name := None; dd_create_option := DCOT_attach;
               dd_managed_disk := Some params |} in
          match data_disks vm with
          | None => raise (AttributeError "'NoneType' object has no attribute 'append'")
          | Some l =>
              _update_vm self vm_name
                {| vm_id := vm_id vm; data_disks := Some (l ++ [data_disk])%list |}
          end
      end
  end.

Definition detach (self : Module) (vm_name : string) (disk : Result) : Run unit :=
  vm <- _get_vm self vm_name ;;
  match data_disks vm with
  | None => raise (TypeError "'NoneType' object is not iterable")
  | Some data =>
      match leftovers_of data disk with
      | inl e => raise e
      | inr leftovers =>
          if (length data =? length leftovers)%nat then
            match disk_get disk d_name with
            | inl e => raise e
            | inr n => fail ("No disk with the name '" +:+ n +:+ "' was found")
            end
          else
            _update_vm self vm_name {| vm_id := vm_id vm; data_disks := Some leftovers |}
      end
  end.

(** [vm_name] as [exec_module] computes it from the disk read. *)
Definition current_vm_name (disk_instance : option DiskDict) : string :=
  let vm_name :=
    match disk_instance with
    | Some d => parse_resource_id (d_managed_by d) !! "name"
    | None => None
    end in
  if truthy_str vm_name then default "" vm_name else "".

Definition exec_module (self : Module) : Run Results :=
  let changed := false in
  resource_group <- get_resource_group (self_resource_group self) ;;
  let self :=
    if negb (truthy_str (self_location self))
    then set_location self (Some (rg_location resource_group)) else self in
  disk_instance <- get_managed_disk self ;;
  let result := result_of disk_instance in
  (* need create or update *)
  cr <-
    match self_state self with
    | present =>
        let parameter := generate_managed_disk_property self in
        if match disk_instance with
           | None => true
           | Some found => is_different found parameter
           end
        then
          if negb (self_check_mode self) then
            r <- create_or_update_managed_disk self parameter ;; ret (true, RDict r)
          else ret (true, RTrue)
        else ret (changed, result)
    | absent => ret (changed, result)
    end ;;
  let '(changed, result) := cr in
  (* unmount from the old virtual machine and mount to the new one *)
  cr <-
    match self_managed_by self with
    | Some managed_by =>
        let vm_name := current_vm_name disk_instance in
        if negb (String.eqb managed_by vm_name) then
          if negb (self_check_mode self) then
            (if negb (String.eqb vm_name "") then detach self vm_name result
             else ret tt) ;;;
            (if negb (String.eqb managed_by "") then attach self managed_by result
             else ret tt) ;;;
            r <- get_managed_disk self ;; ret (true, result_of r)
          else ret (true, result)
        else ret (changed, result)
    | None => ret (changed, result)
    end ;;
  let '(changed, result) := cr in
  cr <-
    match self_state self, disk_instance with
    | absent, Some _ =>
        (if negb (self_check_mode self) then delete_managed_disk self else ret tt) ;;;
        ret (true, RTrue)
    | _, _ => ret (changed, result)
    end ;;
  let '(changed, result) := cr in
  ret {| changed := changed; state := result |}.

(** Run a piece of the module from a provider state with an empty trace. *)
Definition run {A} (m : Run A) (w : W) : Outcome A * (W * list Call) := m (w, []).

End Module.

(** ** An in-memory provider

    A provider that keeps one disk slot and a table of virtual machines:
    what is written is what is read back.  The disk slot holds either the
    stored disk or the error its read raises. *)

Record FakeWorld := {
  fw_location : option string;
  fw_disk : PyExc + Disk;
  fw_vms : gmap string VirtualMachine
}.

Definition not_found : PyExc := CloudError 404 "ResourceNotFound".

Definition fake_create_option_str (o : DiskCreateOption) : string :=
  match o with
  | DCO_empty => "Empty"
  | DCO_import_enum => "Import"
  | DCO_copy => "Copy"
  end.

Definition fake_disk (w : FakeWorld) (rg name : string) (p : DiskParams) : Disk :=
  {| disk_id := "/resourceGroups/" +:+ rg +:+ "/disks/" +:+ name;
     disk_name := name;
     disk_location := default "" (dp_location p);
     disk_tags := dp_tags p;
     disk_creation_data :=
       {| cd_create_option := fake_create_option_str (cdp_create_option (dp_creation_data p));
          cd_source_uri := cdp_source_uri (dp_creation_data p);
          cd_source_resource_id := cdp_source_resource_id (dp_creation_data p) |};
     disk_disk_size_gb := dp_disk_size_gb p;
     disk_os_type := dp_os_type p;
     disk_sku := dp_sku p;
     disk_managed_by :=
       match fw_disk w with inr d => disk_managed_by d | inl _ => None end |}.

#[global] Instance fake_cloud : Cloud FakeWorld := {|
  get_resource_group_result w rg :=
    match fw_location w with
    | Some l => inr {| rg_location := l |}
    | None => inl ("Error retrieving resource group " +:+ rg)
    end;
  disks_get w rg name := fw_disk w;
  disks_create_or_update w rg name p :=
    let d := fake_disk w rg name p in
    (inr d, {| fw_location := fw_location w; fw_disk := inr d; fw_vms := fw_vms w |});
  disks_delete w rg name :=
    match fw_disk w with
    | inr _ =>
        (inr tt, {| fw_location := fw_location w; fw_disk := inl not_found;
                    fw_vms := fw_vms w |})
    | inl e => (inl e, w)
    end;
  virtual_machines_get w rg name :=
    match fw_vms w !! name with
    | Some vm => inr vm
    | None => inl not_found
    end;
  virtual_machines_create_or_update w rg name vm :=
    (inr tt, {| fw_location := fw_location w; fw_disk := fw_disk w;
                fw_vms := <[name := vm]> (fw_vms w) |})
|}.

(** The last segment of a resource id. *)
Fixpoint after_last_slash (s cur : string) : string :=
  match s with
  | EmptyString => cur
  | String c r =>
      if Ascii.eqb c "/" then after_last_slash r "" else after_last_slash r (cur +:+ String c "")
  end.

#[global] Instance fake_sdk : Sdk := {|
  parse_resource_id rid :=
    match rid with
    | Some (String c r) => {[ "name" := after_last_slash (String c r) "" ]}
    | _ => ∅
    end;
  OperatingSystemTypes_linux := "Linux";
  OperatingSystemTypes_windows := "Windows"
|}.

Definition bare_disk (name : string) (size : option Z) (managed_by : option string) : Disk :=
  {| disk_id := "/resourceGroups/rg1/disks/" +:+ name;
     disk_name := name; disk_location := "eastus"; disk_tags := None;
     disk_creation_data :=
       {| cd_create_option := "Empty"; cd_source_uri := None;
          cd_source_resource_id := None |};
     disk_disk_size_gb := size; disk_os_type := None;
     disk_sku := Some {| sku_name := "Standard_LRS" |};
     disk_managed_by := managed_by |}.

(** ** The diff engine, in words *)

(** The diff as the specification words it: a field counts when the
    target declares it and the current value differs. *)
Definition declares_and_differs {A} (target current : option A) : Prop :=
  exists v, target = Some v /\ current <> Some v.

Definition spec_is_different (found_disk : DiskDict) (new_disk : DiskParams) : Prop :=
  declares_and_differs (dp_disk_size_gb new_disk) (d_disk_size_gb found_disk)
  \/ declares_and_differs (dp_os_type new_disk) (d_os_type found_disk)
  \/ declares_and_differs (sku_name <$> dp_sku new_disk) (d_storage_account_type found_disk)
  \/ declares_and_differs (dp_tags new_disk) (d_tags found_disk).

(** What the code takes for "declared": a size other than 0, an os type
    other than the empty string, any sku, any tag set. *)
Definition code_is_different (found_disk : DiskDict) (new_disk : DiskParams) : Prop :=
  (exists n, dp_disk_size_gb new_disk = Some n /\ n <> 0
             /\ d_disk_size_gb found_disk <> Some n)
  \/ (exists o, dp_os_type new_disk = Some o /\ o <> ""
                /\ d_os_type found_disk <> Some o)
  \/ declares_and_differs (sku_name <$> dp_sku new_disk) (d_storage_account_type found_disk)
  \/ declares_and_differs (dp_tags new_disk) (d_tags found_disk).

(** [self] after [exec_module] has given it the resource group's location. *)
Definition located (self : Module) (g : ResourceGroup) : Module :=
  if negb (truthy_str (self_location self))
  then set_location self (Some (rg_location g)) else self.

(** ** The phases of a run, and what is said about them *)

Section Reconciler.
Context `{sdk : Sdk} {W : Type} `{cloud : Cloud W}.

Local Open Scope run_scope.
Implicit Types (self : Module) (w : W).

(** *** The three decisions of [exec_module]

    [exec_module], after its two reads, is an update phase, an attachment
    phase and a delete phase run one after the other
    ([exec_module_phases] proves it equal to their sequence). *)

Definition update_phase self (disk_instance : option DiskDict) : M W (bool * Result) :=
  match self_state self with
  | present =>
      let parameter := generate_managed_disk_property self in
      if match disk_instance with
         | None => true
         | Some found => is_different found parameter
         end
      then
        if negb (self_check_mode self) then
          r <- create_or_update_managed_disk self parameter ;; ret (true, RDict r)
        else ret (true, RTrue)
      else ret (false, result_of disk_instance)
  | absent => ret (false, result_of disk_instance)
  end.

Definition attachment_phase self (disk_instance : option DiskDict)
    (cr : bool * Result) : M W (bool * Result) :=
  let '(changed, result) := cr in
  match self_managed_by self with
  | Some managed_by =>
      let vm_name := current_vm_name disk_instance in
      if negb (String.eqb managed_by vm_name) then
        if negb (self_check_mode self) then
          (if negb (String.eqb vm_name "") then detach self vm_name result
           else ret tt) ;;;
          (if negb (String.eqb managed_by "") then attach self managed_by result
           else ret tt) ;;;
          r <- get_managed_disk self ;; ret (true, result_of r)
        else ret (true, result)
      else ret (changed, result)
  | None => ret (changed, result)
  end.

Definition delete_phase self (disk_instance : option DiskDict)
    (cr : bool * Result) : M W (bool * Result) :=
  let '(changed, result) := cr in
  match self_state self, disk_instance with
  | absent, Some _ =>
      (if negb (self_check_mode self) then delete_managed_disk self else ret tt) ;;;
      ret (true, RTrue)
  | _, _ => ret (changed, result)
  end.

(** The three conditions the phases test. *)
Definition need_update self (disk_instance : option DiskDict) : bool :=
  match self_state self with
  | present =>
      match disk_instance with
      | None => true
      | Some found => is_different found (generate_managed_disk_property self)
      end
  | absent => false
  end.

Definition need_attachment self (disk_instance : option DiskDict) : bool :=
  match self_managed_by self with
  | Some managed_by => negb (String.eqb managed_by (current_vm_name disk_instance))
  | None => false
  end.

Definition need_delete self (disk_instance : option DiskDict) : bool :=
  match self_state self, disk_instance with
  | absent, Some _ => true
  | _, _ => false
  end.

Definition predicted_changed self (disk_instance : option DiskDict) : bool :=
  need_update self disk_instance || need_attachment self disk_instance
  || need_delete self disk_instance.

(** The entry [attach] appends. *)
Definition new_data_disk (vm : VirtualMachine) (d : DiskDict) : DataDisk :=
  {| lun := next_lun vm; dd_name := None; dd_create_option := DCOT_attach;
     dd_managed_disk :=
       Some {| mdp_id := Some (d_id d);
               mdp_storage_account_type := d_storage_account_type d |} |}.

(** *** Traces *)

(** [m] only appends to the trace, and every call it appends satisfies [P]. *)
Definition appends {A} (P : Call -> Prop) (m : M W A) : Prop :=
  forall w t, exists l, (m (w, t)).2.2 = (t ++ l)%list /\ Forall P l.

Definition is_vm_call (c : Call) : Prop :=
  match c with
  | CallVirtualMachinesGet _ _ | CallVirtualMachinesCreateOrUpdate _ _ _ => True
  | _ => False
  end.

Definition is_disks_get (c : Call) : Prop :=
  match c with CallDisksGet _ _ => True | _ => False end.

(** The two reads every run starts with. *)
Definition reads self : list Call :=
  [CallResourceGroupsGet (self_resource_group self);
   CallDisksGet (self_resource_group self) (self_name self)].

(** What [get_managed_disk] makes of the provider's answer. *)
Definition snapshot self w : Outcome (option DiskDict) :=
  match disks_get w (self_resource_group self) (self_name self) with
  | inr resp => Ok (Some (managed_disk_to_dict resp))
  | inl (CloudError _ _) => Ok None
  | inl e => Raise e
  end.

Definition reconcile self (disk_instance : option DiskDict) : M W Results :=
  cr <- update_phase self disk_instance ;;
  cr <- attachment_phase self disk_instance cr ;;
  cr <- delete_phase self disk_instance cr ;;
  let '(changed, result) := cr in
  ret {| changed := changed; state := result |}.

(** The [state] a dry run reports. *)
Definition dry_state self (disk_instance : option DiskDict) : Result :=
  if need_delete self disk_instance then RTrue
  else if need_update self disk_instance then RTrue
  else result_of disk_instance.

Definition is_disks_create_or_update (c : Call) : Prop :=
  match c with CallDisksCreateOrUpdate _ _ _ => True | _ => False end.

Definition is_disks_delete (c : Call) : Prop :=
  match c with CallDisksDelete _ _ => True | _ => False end.

(** *** What the claims speak of *)

(** The same invocation with check mode set to [b]. *)
Definition set_check_mode self (b : bool) : Module :=
  {| self_resource_group := self_resource_group self;
     self_name := self_name self;
     self_state := self_state self;
     self_location := self_location self;
     self_storage_account_type := self_storage_account_type self;
     self_create_option := self_create_option self;
     self_source_uri := self_source_uri self;
     self_os_type := self_os_type self;
     self_disk_size_gb := self_disk_size_gb self;
     self_managed_by := self_managed_by self;
     self_tags := self_tags self;
     self_check_mode := b |}.


(** No change of attachment is asked for: [managed_by] is omitted, or
    names the vm the disk read reports. *)
Definition attachment_unchanged self (disk_instance : option DiskDict) : Prop :=
  forall mb, self_managed_by self = Some mb -> mb = current_vm_name disk_instance.

(** An entry names the disk, up to case. *)
Definition name_matches (disk_name : string) (e : DataDisk) : bool :=
  match dd_name e with
  | Some n => String.eqb (lower n) (lower disk_name)
  | None => false
  end.

Definition named (e : DataDisk) : Prop := is_Some (dd_name e).

(** What the detach step of the attachment pass did, seen from its
    trace [lA]: nothing when the disk was not attached, else a read of the
    old vm and a write of it without the entries [leftovers_of] drops. *)
Definition detached self (vm_name : string) (disk : Result) w (lA : list Call) : Prop :=
  if String.eqb vm_name "" then lA = []
  else exists vm data leftovers,
      virtual_machines_get w (self_resource_group self) vm_name = inr vm
      /\ data_disks vm = Some data
      /\ leftovers_of data disk = inr leftovers
      /\ (length leftovers < length data)%nat
      /\ lA = [CallVirtualMachinesGet (self_resource_group self) vm_name;
               CallVirtualMachinesCreateOrUpdate (self_resource_group self) vm_name
                 {| vm_id := vm_id vm; data_disks := Some leftovers |}].

(** What the attach step did, seen from its trace [lB]: nothing when
    [managed_by] is empty, else a read of the new vm and a write of it
    with one entry appended. *)
Definition attached self (managed_by : string) (disk : Result) (lB : list Call) : Prop :=
  if String.eqb managed_by "" then lB = []
  else exists wB vm d l,
      disk = RDict d
      /\ virtual_machines_get wB (self_resource_group self) managed_by = inr vm
      /\ data_disks vm = Some l
      /\ lB = [CallVirtualMachinesGet (self_resource_group self) managed_by;
               CallVirtualMachinesCreateOrUpdate (self_resource_group self) managed_by
                 {| vm_id := vm_id vm;
                    data_disks := Some (l ++ [new_data_disk vm d])%list |}].

(** *** Argument validation and [main] *)










(** *** Two runs in succession *)

(** A provider that gives back what it was given: after a successful
    create-or-update the disk reads with the size and os type written,
    and with the sku and tags written when the parameters carry them;
    after a successful delete the disk read raises a [CloudError]; neither
    call changes what the resource group reads as. *)
Definition stores_what_is_written : Prop :=
  (forall w rg n p d w',
      disks_create_or_update w rg n p = (inr d, w') ->
      get_resource_group_result w' rg = get_resource_group_result w rg
      /\ exists d',
          disks_get w' rg n = inr d'
          /\ disk_disk_size_gb d' = dp_disk_size_gb p
          /\ disk_os_type d' = dp_os_type p
          /\ (is_Some (dp_sku p) -> disk_sku d' = dp_sku p)
          /\ (is_Some (dp_tags p) -> disk_tags d' = dp_tags p))
  /\ (forall w rg n u w',
        disks_delete w rg n = (inr u, w') ->
        get_resource_group_result w' rg = get_resource_group_result w rg
        /\ exists c m, disks_get w' rg n = inl (CloudError c m)).

(** The os type the module sends reads back unchanged by
    [managed_disk_to_dict]'s lower-casing. *)
Definition os_type_stable self : Prop :=
  forall v, dp_os_type (generate_managed_disk_property self) = Some v -> lower v = v.

End Reconciler.

(** ** More of what is said about runs *)

Section Coverage.
Context `{sdk : Sdk} {W : Type} `{cloud : Cloud W}.

Implicit Types (self : Module) (w : W).

(** A call on the virtual machine [name]. *)
Definition on_vm (name : string) (c : Call) : Prop :=
  match c with
  | CallVirtualMachinesGet _ n | CallVirtualMachinesCreateOrUpdate _ n _ => n = name
  | _ => False
  end.

Definition is_disk_read (c : Call) : bool :=
  match c with CallDisksGet _ _ => true | _ => false end.

(** Whatever [m] raises is not a [CloudError]. *)
Definition raises_no_CloudError {A} (m : M W A) : Prop :=
  forall s e, (m s).1 = Raise e -> is_CloudError e = false.

(** The location [exec_module] settles on. *)
Definition resolved_location self (g : ResourceGroup) : option string :=
  if truthy_str (self_location self) then self_location self
  else Some (rg_location g).

(** The provider kept the creation data it was sent. *)
Definition keeps_creation_data (disk : Disk) (p : DiskParams) : Prop :=
  cd_source_uri (disk_creation_data disk) = cdp_source_uri (dp_creation_data p)
  /\ cd_source_resource_id (disk_creation_data disk)
     = cdp_source_resource_id (dp_creation_data p).

End Coverage.

(** ** Concrete invocations and provider states *)

(** Disk [d1] of resource group [rg1], with the arguments that vary. *)
Definition disk_args (st : State) (sku : option StorageAccountType) (size : option Z)
    (managed_by : option string) (check : bool) : Module :=
  {| self_resource_group := "rg1"; self_name := "d1"; self_state := st;
     self_location := None; self_storage_account_type := sku;
     self_create_option := None; self_source_uri := None; self_os_type := None;
     self_disk_size_gb := size; self_managed_by := managed_by; self_tags := None;
     self_check_mode := check |}.


Definition entry (n : string) (l : Z) : DataDisk :=
  {| lun := l; dd_name := Some n; dd_create_option := DCOT_attach;
     dd_managed_disk := None |}.

Definition eastus : ResourceGroup := {| rg_location := "eastus" |}.

(** No disk, no vm. *)
Definition world_absent : FakeWorld :=
  {| fw_location := Some "eastus"; fw_disk := inl not_found; fw_vms := ∅ |}.

(** The disk read is refused. *)
Definition world_forbidden : FakeWorld :=
  {| fw_location := Some "eastus";
     fw_disk := inl (CloudError 403 "AuthorizationFailed");
     fw_vms := ∅ |}.

Definition vmA : VirtualMachine :=
  {| vm_id := "vmA"; data_disks := Some [entry "other" 0; entry "D1" 1] |}.

Definition vmB : VirtualMachine :=
  {| vm_id := "vmB"; data_disks := Some [entry "x" 3; entry "y" 1] |}.

(** A 4 GB disk attached to [vmA]; [vmB] has two data disks of its own. *)
Definition world_attached : FakeWorld :=
  {| fw_location := Some "eastus";
     fw_disk :=
       inr (bare_disk "d1" (Some 4) (Some "/resourceGroups/rg1/virtualMachines/vmA"));
     fw_vms := {[ "vmA" := vmA; "vmB" := vmB ]} |}.

(** A 4 GB disk attached to nothing; [vmB] as above. *)
Definition world_unattached : FakeWorld :=
  {| fw_location := Some "eastus";
     fw_disk := inr (bare_disk "d1" (Some 4) None);
     fw_vms := {[ "vmB" := vmB ]} |}.

(** ** More invocations and provider states *)

(** An import of a blob. *)
Definition import_blob_args : Module :=
  {| self_resource_group := "rg1"; self_name := "d1"; self_state := present;
     self_location := None; self_storage_account_type := None;
     self_create_option := Some co_import;
     self_source_uri := Some "https://account.blob.core.windows.net/vhds/d1.vhd";
     self_os_type := None; self_disk_size_gb := None; self_managed_by := None;
     self_tags := None; self_check_mode := false |}.

(** A 4 GB Linux disk. *)
Definition linux_args : Module :=
  {| self_resource_group := "rg1"; self_name := "d1"; self_state := present;
     self_location := None; self_storage_account_type := None;
     self_create_option := None; self_source_uri := None;
     self_os_type := Some linux; self_disk_size_gb := Some 4;
     self_managed_by := None; self_tags := None; self_check_mode := false |}.

(** No disk; [vmB] has two data disks of its own. *)
Definition world_absent_vmB : FakeWorld :=
  {| fw_location := Some "eastus"; fw_disk := inl not_found;
     fw_vms := {[ "vmB" := vmB ]} |}.

(** The disk read breaks with something that is not a [CloudError]. *)
Definition world_broken : FakeWorld :=
  {| fw_location := Some "eastus";
     fw_disk := inl (OtherException "connection reset"); fw_vms := ∅ |}.

Definition conflict : PyExc := CloudError 409 "Conflict".

(** A provider that reads as [fake_cloud] does and refuses every write. *)
Definition readonly_cloud : Cloud FakeWorld := {|
  get_resource_group_result := get_resource_group_result (Cloud := fake_cloud);
  disks_get := disks_get (Cloud := fake_cloud);
  disks_create_or_update w rg name p := (inl conflict, w);
  disks_delete w rg name := (inl conflict, w);
  virtual_machines_get := virtual_machines_get (Cloud := fake_cloud);
  virtual_machines_create_or_update w rg name vm := (inl conflict, w)
|}.

Arguments update_phase : simpl never.
Arguments attachment_phase : simpl never.
Arguments delete_phase : simpl never.

(** * Proofs *)

(** ** The diff engine *)

Lemma truthy_int_spec o : truthy_int o = true <-> exists n, o = Some n /\ n <> 0.
Proof.
  destruct o as [n|]; simpl.
  - rewrite negb_true_iff, Z.eqb_neq. split.
    + intros Hn. exists n. auto.
    + intros (m & Hm & Hne). congruence.
  - split; [discriminate | intros (m & Hm & _); discriminate].
Qed.

Lemma truthy_str_spec o : truthy_str o = true <-> exists s, o = Some s /\ s <> "".
Proof.
  destruct o as [s|]; simpl.
  - rewrite negb_true_iff, String.eqb_neq. split.
    + intros Hn. exists s. auto.
    + intros (m & Hm & Hne). congruence.
  - split; [discriminate | intros (m & Hm & _); discriminate].
Qed.

Lemma is_different_true found_disk new_disk :
  is_different found_disk new_disk = true <-> code_is_different found_disk new_disk.
Proof.
  unfold is_different, code_is_different, declares_and_differs, py_eq.
  destruct (dp_disk_size_gb new_disk) as [n|], (dp_os_type new_disk) as [o|],
    (dp_sku new_disk) as [k|], (dp_tags new_disk) as [t|]; simpl;
    repeat match goal with
           | |- context [ (?n =? 0) ] => destruct (Z.eqb_spec n 0)
           | |- context [ String.eqb ?o "" ] => destruct (String.eqb_spec o "")
           | |- context [ bool_decide ?P ] => destruct (bool_decide_reflect P)
           end; simpl;
    (split;
     [ try discriminate; intros _; eauto 10
     | try reflexivity;
       intros [(?&?&?&?)|[(?&?&?&?)|[(?&?&?)|(?&?&?)]]]; simplify_eq; congruence ]).
Qed.

Lemma located_fields self g :
  self_resource_group (located self g) = self_resource_group self
  /\ self_name (located self g) = self_name self
  /\ self_state (located self g) = self_state self
  /\ self_managed_by (located self g) = self_managed_by self
  /\ self_check_mode (located self g) = self_check_mode self.
Proof. unfold located. destruct (negb _); simpl; auto. Qed.

Section Properties.
Context `{sdk : Sdk} {W : Type} `{cloud : Cloud W}.

Local Open Scope run_scope.
Implicit Types (self : Module) (w : W) (t : list Call) (s : W * list Call).

(** ** One equation per provider call *)

Lemma bind_Ok_inv {A B} (m : M W A) (k : A -> M W B) s b s' :
  bind m k s = (Ok b, s') -> exists a s1, m s = (Ok a, s1) /\ k a s1 = (Ok b, s').
Proof.
  unfold bind. destruct (m s) as [[a|msg|e] s1]; intros Hk; try discriminate.
  eauto.
Qed.

Lemma get_resource_group_eq rg w t :
  get_resource_group rg (w, t) =
    (match get_resource_group_result w rg with
     | inr g => Ok g
     | inl msg => Fail msg
     end, (w, t ++ [CallResourceGroupsGet rg])%list).
Proof.
  unfold get_resource_group, bind, emit, get_world. simpl.
  destruct (get_resource_group_result w rg); done.
Qed.

Lemma get_managed_disk_eq self w t :
  get_managed_disk self (w, t) =
    (match disks_get w (self_resource_group self) (self_name self) with
     | inr resp => Ok (Some (managed_disk_to_dict resp))
     | inl (CloudError _ _) => Ok None
     | inl e => Raise e
     end, (w, t ++ [CallDisksGet (self_resource_group self) (self_name self)])%list).
Proof.
  unfold get_managed_disk, bind, emit, get_world. simpl.
  destruct (disks_get w _ _) as [[]|]; done.
Qed.

Lemma create_or_update_managed_disk_eq self p w t :
  create_or_update_managed_disk self p (w, t) =
    let r := disks_create_or_update w (self_resource_group self) (self_name self) p in
    (match r.1 with
     | inr aux => Ok (managed_disk_to_dict aux)
     | inl (CloudError _ _ as e) =>
         Fail ("Error creating the managed disk: " +:+ str_exc e)
     | inl e => Raise e
     end,
     (r.2, t ++ [CallDisksCreateOrUpdate (self_resource_group self) (self_name self) p])%list).
Proof.
  unfold create_or_update_managed_disk, bind, emit, get_world, put_world. simpl.
  destruct (disks_create_or_update w _ _ p) as [[[]|] w']; done.
Qed.

Lemma delete_managed_disk_eq self w t :
  delete_managed_disk self (w, t) =
    let r := disks_delete w (self_resource_group self) (self_name self) in
    (match r.1 with
     | inr u => Ok u
     | inl (CloudError _ _ as e) =>
         Fail ("Error deleting the managed disk: " +:+ str_exc e)
     | inl e => Raise e
     end,
     (r.2, t ++ [CallDisksDelete (self_resource_group self) (self_name self)])%list).
Proof.
  unfold delete_managed_disk, bind, emit, get_world, put_world. simpl.
  destruct (disks_delete w _ _) as [[[]|] w']; done.
Qed.

Lemma _get_vm_eq self name w t :
  _get_vm self name (w, t) =
    (match virtual_machines_get w (self_resource_group self) name with
     | inr vm => Ok vm
     | inl exc =>
         Fail ("Error getting virtual machine " +:+ name +:+ " - " +:+ str_exc exc)
     end, (w, t ++ [CallVirtualMachinesGet (self_resource_group self) name])%list).
Proof.
  unfold _get_vm, bind, emit, get_world. simpl.
  destruct (virtual_machines_get w _ name); done.
Qed.

Lemma _update_vm_eq self name vm w t :
  _update_vm self name vm (w, t) =
    let r := virtual_machines_create_or_update w (self_resource_group self) name vm in
    (match r.1 with
     | inr u => Ok u
     | inl exc =>
         Fail ("Error updating virtual machine " +:+ name +:+ " - " +:+ str_exc exc)
     end,
     (r.2, t ++ [CallVirtualMachinesCreateOrUpdate (self_resource_group self) name vm])%list).
Proof.
  unfold _update_vm, bind, emit, get_world, put_world. simpl.
  destruct (virtual_machines_create_or_update w _ name vm) as [[|] w']; done.
Qed.

(** ** The phases *)

Lemma exec_module_phases self s :
  exec_module self s =
    (resource_group <- get_resource_group (self_resource_group self) ;;
     let self := located self resource_group in
     disk_instance <- get_managed_disk self ;;
     cr <- update_phase self disk_instance ;;
     cr <- attachment_phase self disk_instance cr ;;
     cr <- delete_phase self disk_instance cr ;;
     let '(changed, result) := cr in
     ret {| changed := changed; state := result |}) s.
Proof.
  unfold exec_module, update_phase, attachment_phase, delete_phase, located, bind.
  destruct (get_resource_group _ s) as [[g| |] s1]; [|done..].
  destruct (get_managed_disk _ s1) as [[di| |] s2]; [|done..].
  match goal with |- context [ let (_, _) := ?m s2 in _ ] =>
    destruct (m s2) as [[[c r]| |] s3]; [|done..] end.
  match goal with |- context [ let (_, _) := ?m s3 in _ ] =>
    destruct (m s3) as [[[c' r']| |] s4]; [|done..] end.
  reflexivity.
Qed.

Lemma update_phase_eq self di w t :
  update_phase self di (w, t) =
    if need_update self di then
      if self_check_mode self then (Ok (true, RTrue), (w, t))
      else
        let p := generate_managed_disk_property self in
        let r := disks_create_or_update w (self_resource_group self) (self_name self) p in
        (match r.1 with
         | inr aux => Ok (true, RDict (managed_disk_to_dict aux))
         | inl (CloudError _ _ as e) =>
             Fail ("Error creating the managed disk: " +:+ str_exc e)
         | inl e => Raise e
         end,
         (r.2, t ++ [CallDisksCreateOrUpdate (self_resource_group self) (self_name self) p])%list)
    else (Ok (false, result_of di), (w, t)).
Proof.
  unfold update_phase, need_update.
  destruct (self_state self); [|done].
  destruct (match di with Some _ => _ | None => _ end); [|done].
  destruct (self_check_mode self); simpl; [done|].
  unfold bind. rewrite create_or_update_managed_disk_eq. simpl.
  destruct (disks_create_or_update w _ _ _) as [[[]|] w']; done.
Qed.

Lemma delete_phase_eq self di cr w t :
  delete_phase self di cr (w, t) =
    if need_delete self di then
      if self_check_mode self then (Ok (true, RTrue), (w, t))
      else
        let r := disks_delete w (self_resource_group self) (self_name self) in
        (match r.1 with
         | inr _ => Ok (true, RTrue)
         | inl (CloudError _ _ as e) =>
             Fail ("Error deleting the managed disk: " +:+ str_exc e)
         | inl e => Raise e
         end,
         (r.2, t ++ [CallDisksDelete (self_resource_group self) (self_name self)])%list)
    else (Ok cr, (w, t)).
Proof.
  unfold delete_phase, need_delete. destruct cr as [c r].
  destruct (self_state self), di; try done.
  destruct (self_check_mode self); simpl; [done|].
  unfold bind. rewrite delete_managed_disk_eq. simpl.
  destruct (disks_delete w _ _) as [[[]|] w']; done.
Qed.

Lemma detach_eq self vm_name disk w t :
  detach self vm_name disk (w, t) =
    let rg := self_resource_group self in
    let t1 := (t ++ [CallVirtualMachinesGet rg vm_name])%list in
    match virtual_machines_get w rg vm_name with
    | inl exc =>
        (Fail ("Error getting virtual machine " +:+ vm_name +:+ " - " +:+ str_exc exc),
         (w, t1))
    | inr vm =>
        match data_disks vm with
        | None => (Raise (TypeError "'NoneType' object is not iterable"), (w, t1))
        | Some data =>
            match leftovers_of data disk with
            | inl e => (Raise e, (w, t1))
            | inr leftovers =>
                if (length data =? length leftovers)%nat then
                  (match disk_get disk d_name with
                   | inl e => Raise e
                   | inr n => Fail ("No disk with the name '" +:+ n +:+ "' was found")
                   end, (w, t1))
                else
                  let vm' := {| vm_id := vm_id vm; data_disks := Some leftovers |} in
                  let r := virtual_machines_create_or_update w rg vm_name vm' in
                  (match r.1 with
                   | inr u => Ok u
                   | inl exc =>
                       Fail ("Error updating virtual machine " +:+ vm_name +:+ " - "
                             +:+ str_exc exc)
                   end,
                   (r.2, t1 ++ [CallVirtualMachinesCreateOrUpdate rg vm_name vm'])%list)
            end
        end
    end.
Proof.
  unfold detach, bind. rewrite _get_vm_eq. simpl.
  destruct (virtual_machines_get w _ vm_name) as [exc|vm]; [done|].
  destruct (data_disks vm) as [data|]; [|done].
  destruct (leftovers_of data disk) as [e|leftovers]; [done|].
  destruct (length data =? length leftovers)%nat.
  - destruct (disk_get disk d_name); done.
  - apply _update_vm_eq.
Qed.

Lemma attach_eq self vm_name disk w t :
  attach self vm_name disk (w, t) =
    let rg := self_resource_group self in
    let t1 := (t ++ [CallVirtualMachinesGet rg vm_name])%list in
    match virtual_machines_get w rg vm_name with
    | inl exc =>
        (Fail ("Error getting virtual machine " +:+ vm_name +:+ " - " +:+ str_exc exc),
         (w, t1))
    | inr vm =>
        match disk with
        | RDict d =>
            match data_disks vm with
            | None =>
                (Raise (AttributeError "'NoneType' object has no attribute 'append'"),
                 (w, t1))
            | Some l =>
                let vm' := {| vm_id := vm_id vm;
                              data_disks := Some (l ++ [new_data_disk vm d])%list |} in
                let r := virtual_machines_create_or_update w rg vm_name vm' in
                (match r.1 with
                 | inr u => Ok u
                 | inl exc =>
                     Fail ("Error updating virtual machine " +:+ vm_name +:+ " - "
                           +:+ str_exc exc)
                 end,
                 (r.2, t1 ++ [CallVirtualMachinesCreateOrUpdate rg vm_name vm'])%list)
            end
        | RNone =>
            (Raise (AttributeError "'NoneType' object has no attribute 'get'"), (w, t1))
        | RTrue =>
            (Raise (AttributeError "'bool' object has no attribute 'get'"), (w, t1))
        end
    end.
Proof.
  unfold attach, bind. rewrite _get_vm_eq. simpl.
  destruct (virtual_machines_get w _ vm_name) as [exc|vm]; [done|].
  destruct disk as [|d|]; simpl; [done| |done].
  destruct (data_disks vm) as [l|]; [|done].
  apply _update_vm_eq.
Qed.

Lemma attachment_phase_skip self di cr s :
  need_attachment self di = false -> attachment_phase self di cr s = (Ok cr, s).
Proof.
  unfold attachment_phase, need_attachment. destruct cr as [c r].
  destruct (self_managed_by self) as [mb|]; [|done]. intros ->. done.
Qed.

Lemma attachment_phase_check self di cr s :
  need_attachment self di = true -> self_check_mode self = true ->
  attachment_phase self di cr s = (Ok (true, cr.2), s).
Proof.
  unfold attachment_phase, need_attachment. destruct cr as [c r].
  destruct (self_managed_by self) as [mb|]; [|done]. intros -> ->. done.
Qed.

Lemma attachment_phase_real self di cr mb :
  self_managed_by self = Some mb ->
  need_attachment self di = true -> self_check_mode self = false ->
  attachment_phase self di cr =
    ((if negb (String.eqb (current_vm_name di) "")
      then detach self (current_vm_name di) cr.2 else ret tt) ;;;
     (if negb (String.eqb mb "") then attach self mb cr.2 else ret tt) ;;;
     r <- get_managed_disk self ;; ret (true, result_of r)).
Proof.
  unfold attachment_phase, need_attachment. destruct cr as [c r].
  intros ->. intros -> ->. done.
Qed.

(** ** What a piece of the module adds to the trace *)

Lemma appends_ret {A} P (a : A) : appends (W:=W) P (ret a).
Proof. intros w t. exists []. simpl. rewrite app_nil_r. auto. Qed.

Lemma appends_bind {A B} P (m : M W A) (k : A -> M W B) :
  appends P m -> (forall a, appends P (k a)) -> appends P (bind m k).
Proof.
  intros Hm Hk w t. destruct (Hm w t) as (l1 & E1 & F1). unfold bind.
  destruct (m (w, t)) as [[a|msg|e] [w1 t1]]; simpl in E1; subst t1; eauto.
  destruct (Hk a w1 (t ++ l1)%list) as (l3 & E3 & F3).
  exists (l1 ++ l3)%list. rewrite E3, app_assoc. split; [done|].
  apply Forall_app; auto.
Qed.

Lemma appends_weaken {A} (P Q : Call -> Prop) (m : M W A) :
  (forall c, P c -> Q c) -> appends P m -> appends Q m.
Proof.
  intros HPQ Hm w t. destruct (Hm w t) as (l & E & F). exists l. split; [done|].
  eapply Forall_impl; eauto.
Qed.

Lemma appends_get_managed_disk self : appends is_disks_get (get_managed_disk self).
Proof.
  intros w t. rewrite get_managed_disk_eq. simpl. eexists. split; [done|].
  repeat constructor.
Qed.

Lemma appends_detach self vm_name disk : appends is_vm_call (detach self vm_name disk).
Proof.
  intros w t. rewrite detach_eq. simpl.
  repeat case_match; simpl; rewrite <- ?app_assoc;
    (eexists; split; [done|]); repeat constructor.
Qed.

Lemma appends_attach self vm_name disk : appends is_vm_call (attach self vm_name disk).
Proof.
  intros w t. rewrite attach_eq. simpl.
  repeat case_match; simpl; rewrite <- ?app_assoc;
    (eexists; split; [done|]); repeat constructor.
Qed.

(** The attachment pass issues vm calls and disk reads, nothing else. *)
Lemma appends_attachment_phase self di cr :
  appends (fun c => is_vm_call c \/ is_disks_get c) (attachment_phase self di cr).
Proof.
  unfold attachment_phase. destruct cr as [c r].
  destruct (self_managed_by self) as [mb|]; [|apply appends_ret].
  destruct (negb (String.eqb mb _)); [|apply appends_ret].
  destruct (negb (self_check_mode self)); [|apply appends_ret].
  apply appends_bind.
  { destruct (negb _); [|apply appends_ret].
    eapply appends_weaken; [|apply appends_detach]. auto. }
  intros _. apply appends_bind.
  { destruct (negb _); [|apply appends_ret].
    eapply appends_weaken; [|apply appends_attach]. auto. }
  intros _. apply appends_bind; [|intros; apply appends_ret].
  eapply appends_weaken; [|apply appends_get_managed_disk]. auto.
Qed.

(** ** A run, after its two reads *)

Lemma exec_module_start self w :
  run (exec_module self) w =
    match get_resource_group_result w (self_resource_group self) with
    | inl msg => (Fail msg, (w, [CallResourceGroupsGet (self_resource_group self)]))
    | inr g =>
        match snapshot self w with
        | Ok di => reconcile (located self g) di (w, reads self)
        | Fail msg => (Fail msg, (w, reads self))
        | Raise e => (Raise e, (w, reads self))
        end
    end.
Proof.
  unfold run. rewrite exec_module_phases. unfold bind at 1.
  rewrite get_resource_group_eq. simpl.
  destruct (get_resource_group_result w _) as [msg|g]; [done|].
  destruct (located_fields self g) as (Lrg & Lname & _).
  unfold bind at 1. rewrite get_managed_disk_eq, Lrg, Lname. unfold snapshot, reads.
  simpl. destruct (disks_get w _ _) as [[]|]; done.
Qed.

Lemma update_phase_Ok self di s c r s' :
  update_phase self di s = (Ok (c, r), s') -> c = need_update self di.
Proof.
  destruct s as [w t]. rewrite update_phase_eq.
  destruct (need_update self di); [|congruence].
  destruct (self_check_mode self); [congruence|]. simpl.
  destruct (disks_create_or_update w _ _ _) as [[[]|] w']; simpl; congruence.
Qed.

Lemma attachment_phase_Ok self di c r s c' r' s' :
  attachment_phase self di (c, r) s = (Ok (c', r'), s') ->
  c' = c || need_attachment self di.
Proof.
  destruct (need_attachment self di) eqn:Hn.
  - rewrite orb_true_r. destruct (self_check_mode self) eqn:Hc.
    + rewrite attachment_phase_check by done. congruence.
    + unfold need_attachment in Hn.
      destruct (self_managed_by self) as [mb|] eqn:Hmb; [|done].
      erewrite attachment_phase_real; [| done | unfold need_attachment; by rewrite Hmb | done].
      intros H. apply bind_Ok_inv in H as (_ & s1 & _ & H).
      apply bind_Ok_inv in H as (_ & s2 & _ & H).
      apply bind_Ok_inv in H as (d & s3 & _ & H). unfold ret in H. congruence.
  - rewrite attachment_phase_skip by done. rewrite orb_false_r. congruence.
Qed.

Lemma delete_phase_Ok self di c r s c' r' s' :
  delete_phase self di (c, r) s = (Ok (c', r'), s') -> c' = c || need_delete self di.
Proof.
  destruct s as [w t]. rewrite delete_phase_eq.
  destruct (need_delete self di); [|rewrite orb_false_r; congruence].
  rewrite orb_true_r.
  destruct (self_check_mode self); [congruence|]. simpl.
  destruct (disks_delete w _ _) as [[[]|] w']; simpl; congruence.
Qed.

(** Whatever a run that returns reports as [changed] was decided from
    the first disk read alone. *)
Lemma reconcile_Ok_changed self di s r s' :
  reconcile self di s = (Ok r, s') -> changed r = predicted_changed self di.
Proof.
  unfold reconcile. intros H.
  apply bind_Ok_inv in H as ([c1 r1] & s1 & H1 & H).
  apply bind_Ok_inv in H as ([c2 r2] & s2 & H2 & H).
  apply bind_Ok_inv in H as ([c3 r3] & s3 & H3 & H).
  apply update_phase_Ok in H1. apply attachment_phase_Ok in H2.
  apply delete_phase_Ok in H3. unfold ret in H. simplify_eq. done.
Qed.

(** In check mode the decisions are taken and nothing else happens. *)
Lemma reconcile_check_mode self di s :
  self_check_mode self = true ->
  reconcile self di s =
    (Ok {| changed := predicted_changed self di; state := dry_state self di |}, s).
Proof.
  intros Hc. destruct s as [w t]. unfold reconcile, predicted_changed, dry_state.
  unfold bind at 1. rewrite update_phase_eq, Hc.
  unfold bind at 1.
  destruct (need_update self di) eqn:Hu;
    (destruct (need_attachment self di) eqn:Ha;
     [ rewrite attachment_phase_check by done
     | rewrite attachment_phase_skip by done ]);
    unfold bind; rewrite delete_phase_eq, Hc;
    destruct (need_delete self di); done.
Qed.

Lemma update_phase_trace self di w t :
  exists l1,
    (update_phase self di (w, t)).2.2 = (t ++ l1)%list
    /\ (l1 = []
        \/ need_update self di = true /\ self_check_mode self = false
           /\ l1 = [CallDisksCreateOrUpdate (self_resource_group self) (self_name self)
                      (generate_managed_disk_property self)]).
Proof.
  rewrite update_phase_eq.
  destruct (need_update self di), (self_check_mode self); simpl;
    try (exists []; rewrite app_nil_r; split; [done|by left]).
  eexists. split; [done|]. right. done.
Qed.

Lemma delete_phase_trace self di cr w t :
  exists l3,
    (delete_phase self di cr (w, t)).2.2 = (t ++ l3)%list
    /\ (l3 = []
        \/ need_delete self di = true /\ self_check_mode self = false
           /\ l3 = [CallDisksDelete (self_resource_group self) (self_name self)]).
Proof.
  rewrite delete_phase_eq.
  destruct (need_delete self di), (self_check_mode self); simpl;
    try (exists []; rewrite app_nil_r; split; [done|by left]).
  eexists. split; [done|]. right. done.
Qed.

(** The calls of a run come in this order: the disk write, then the vm
    calls and the re-read of the attachment pass, then the delete. *)
Lemma reconcile_trace self di w t :
  exists l1 l2 l3,
    (reconcile self di (w, t)).2.2 = (t ++ l1 ++ l2 ++ l3)%list
    /\ (l1 = []
        \/ need_update self di = true /\ self_check_mode self = false
           /\ l1 = [CallDisksCreateOrUpdate (self_resource_group self) (self_name self)
                      (generate_managed_disk_property self)])
    /\ Forall (fun c => is_vm_call c \/ is_disks_get c) l2
    /\ (l3 = []
        \/ need_delete self di = true /\ self_check_mode self = false
           /\ l3 = [CallDisksDelete (self_resource_group self) (self_name self)]).
Proof.
  unfold reconcile, bind.
  destruct (update_phase_trace self di w t) as (l1 & E1 & F1).
  destruct (update_phase self di (w, t)) as [[cr1|msg|e] [w1 t1]]; simpl in E1; subst t1;
    [| exists l1, [], []; rewrite !app_nil_r; auto..].
  destruct (appends_attachment_phase self di cr1 w1 (t ++ l1)%list) as (l2 & E2 & F2).
  destruct (attachment_phase self di cr1 _) as [[cr2|msg|e] [w2 t2]]; simpl in E2; subst t2;
    [| exists l1, l2, []; rewrite !app_nil_r, <- ?app_assoc; auto..].
  destruct (delete_phase_trace self di cr2 w2 ((t ++ l1) ++ l2)%list) as (l3 & E3 & F3).
  destruct (delete_phase self di cr2 _) as [[[c3 r3]|msg|e] [w3 t3]]; simpl in E3; subst t3;
    exists l1, l2, l3; simpl; rewrite <- ?app_assoc; auto.
Qed.

(** Outside check mode a needed update is the first call after the reads. *)
Lemma reconcile_update_first self di w t :
  need_update self di = true -> self_check_mode self = false ->
  exists l,
    (reconcile self di (w, t)).2.2 =
      (t ++ CallDisksCreateOrUpdate (self_resource_group self) (self_name self)
              (generate_managed_disk_property self) :: l)%list.
Proof.
  intros Hu Hc.
  pose proof (update_phase_eq self di w t) as Eu. rewrite Hu, Hc in Eu. simpl in Eu.
  unfold reconcile, bind. rewrite Eu.
  destruct (disks_create_or_update w _ _ _) as [[[]|aux] w1]; simpl;
    try (exists []; done).
  match goal with |- context [attachment_phase self di ?cr (?w, ?t)] =>
    destruct (appends_attachment_phase self di cr w t) as (l2 & E2 & _);
    destruct (attachment_phase self di cr (w, t)) as [[cr2|msg|e] [w2 t2]] end;
    simpl in E2; subst t2; try (exists l2; simpl; by rewrite <- app_assoc).
  match goal with |- context [delete_phase self di ?cr (?w, ?t)] =>
    destruct (delete_phase_trace self di cr w t) as (l3 & E3 & _);
    destruct (delete_phase self di cr (w, t)) as [[[c3 r3]|msg|e] [w3 t3]] end;
    simpl in E3; subst t3; exists (l2 ++ l3)%list; simpl; by rewrite <- !app_assoc.
Qed.

(** ** The diff, the create path and check mode *)

Lemma predicted_changed_check_mode self b g di :
  predicted_changed (located (set_check_mode self b) g) di
  = predicted_changed (located self g) di.
Proof.
  destruct self. unfold located. simpl. destruct (negb _); reflexivity.
Qed.

(** C1 (amended).  [is_different] answers true exactly when the target
    declares a size other than 0 that differs from the current size, or
    an os type other than the empty string that differs from the current
    os type, or a sku whose name differs from the current storage tier, or
    a tag set (the empty one included) that differs from the current
    tags.  A target that declares none of the four is never different.
    With [state=present] and the disk absent, the run counts as changed
    whatever the target: every run that returns reports [changed=true];
    in check mode it returns at once, and outside check mode the write is
    the first call after the two reads. *)
Theorem is_different_iff_declared_diff :
  (forall found new, is_different found new = true <-> code_is_different found new)
  /\ (forall found new,
        dp_disk_size_gb new = None -> dp_os_type new = None ->
        dp_sku new = None -> dp_tags new = None ->
        is_different found new = false)
  /\ (forall self w g c m,
        self_state self = present ->
        get_resource_group_result w (self_resource_group self) = inr g ->
        disks_get w (self_resource_group self) (self_name self) = inl (CloudError c m) ->
        (forall r s, run (exec_module self) w = (Ok r, s) -> changed r = true)
        /\ (self_check_mode self = true ->
             run (exec_module self) w
             = (Ok {| changed := true; state := RTrue |}, (w, reads self)))
        /\ (self_check_mode self = false ->
             exists l,
               (run (exec_module self) w).2.2
               = (reads self
                  ++ CallDisksCreateOrUpdate (self_resource_group self) (self_name self)
                       (generate_managed_disk_property (located self g)) :: l)%list)).
Proof.
  split; [apply is_different_true|]. split.
  - intros found new Hs Ho Hk Ht. unfold is_different.
    rewrite Hs, Ho, Hk, Ht. reflexivity.
  - intros self w g c m Hst Hrg Hget.
    destruct (located_fields self g) as (Lrg & Lname & Lst & Lmb & Lck).
    assert (Hu : need_update (located self g) None = true).
    { unfold need_update. by rewrite Lst, Hst. }
    assert (Hd : need_delete (located self g) None = false).
    { unfold need_delete. by rewrite Lst, Hst. }
    rewrite exec_module_start, Hrg. unfold snapshot. rewrite Hget.
    split; [|split].
    + intros r s Hr. apply reconcile_Ok_changed in Hr. rewrite Hr.
      unfold predicted_changed. by rewrite Hu.
    + intros Hc. rewrite reconcile_check_mode by congruence.
      unfold predicted_changed, dry_state. by rewrite Hu, Hd.
    + intros Hc. rewrite <- Lrg, <- Lname. apply reconcile_update_first; congruence.
Qed.

(** C7.  A run in check mode leaves the provider state as it was and
    issues no mutating call; and whenever the same invocation without
    check mode returns, the check-mode run returns too, with the same
    [changed]. *)
Theorem dry_run_equivalence self w :
  (run (exec_module (set_check_mode self true)) w).2.1 = w
  /\ Forall (fun c => mutating c = false)
       (run (exec_module (set_check_mode self true)) w).2.2
  /\ forall r s,
       run (exec_module (set_check_mode self false)) w = (Ok r, s) ->
       exists r',
         (run (exec_module (set_check_mode self true)) w).1 = Ok r'
         /\ changed r' = changed r.
Proof.
  rewrite !exec_module_start.
  change (self_resource_group (set_check_mode self _)) with (self_resource_group self).
  change (snapshot (set_check_mode self true) w) with (snapshot self w).
  change (snapshot (set_check_mode self false) w) with (snapshot self w).
  change (reads (set_check_mode self _)) with (reads self).
  destruct (get_resource_group_result w _) as [msg|g]; simpl.
  { repeat split; [repeat constructor | discriminate]. }
  destruct (snapshot self w) as [di|msg|e]; simpl;
    try (repeat split; [repeat constructor | discriminate]).
  rewrite reconcile_check_mode.
  2:{ by destruct (located_fields (set_check_mode self true) g) as (_&_&_&_&->). }
  simpl. repeat split; [repeat constructor|].
  intros r s Hr. apply reconcile_Ok_changed in Hr.
  eexists. split; [done|]. simpl. by rewrite Hr, !predicted_changed_check_mode.
Qed.

(** C8 (amended).  [get_managed_disk] turns every [CloudError] of the disk
    read into the absent state, whatever its status code, and returns; an
    exception of any other class is not caught: it leaves
    [get_managed_disk], and [exec_module] with it, right after the two
    reads.  A disk that is read is returned as its dict. *)
Theorem get_managed_disk_outcomes self w t :
  (forall c m,
      disks_get w (self_resource_group self) (self_name self) = inl (CloudError c m) ->
      get_managed_disk self (w, t)
      = (Ok None, (w, t ++ [CallDisksGet (self_resource_group self) (self_name self)])%list))
  /\ (forall e,
        disks_get w (self_resource_group self) (self_name self) = inl e ->
        is_CloudError e = false ->
        get_managed_disk self (w, t)
        = (Raise e, (w, t ++ [CallDisksGet (self_resource_group self) (self_name self)])%list)
        /\ forall g,
             get_resource_group_result w (self_resource_group self) = inr g ->
             run (exec_module self) w = (Raise e, (w, reads self)))
  /\ (forall resp,
        disks_get w (self_resource_group self) (self_name self) = inr resp ->
        get_managed_disk self (w, t)
        = (Ok (Some (managed_disk_to_dict resp)),
           (w, t ++ [CallDisksGet (self_resource_group self) (self_name self)])%list)).
Proof.
  rewrite get_managed_disk_eq. split; [|split].
  - intros c m ->. done.
  - intros e He Hc. rewrite He. split; [by destruct e|].
    intros g Hg. rewrite exec_module_start, Hg. unfold snapshot. rewrite He.
    by destruct e.
  - intros resp ->. done.
Qed.

(** ** Runs that have nothing to write, and the delete path *)


Lemma attachment_unchanged_need self g di :
  attachment_unchanged self di -> need_attachment (located self g) di = false.
Proof.
  intros Hmb. destruct (located_fields self g) as (_ & _ & _ & Lmb & _).
  unfold need_attachment. rewrite Lmb.
  destruct (self_managed_by self) as [mb|] eqn:E; [|done].
  rewrite (Hmb mb E), String.eqb_refl. done.
Qed.


(** C6 (amended).  With [state=absent] and no change of attachment asked
    for: when the disk exists the run reports [changed=true]; outside check
    mode it issues the delete call right after the two reads and, the
    delete succeeding, returns with the provider state the delete left; in
    check mode it issues no delete.  When the disk does not exist the run
    issues no delete and reports [changed=false]. *)
Theorem absent_state_deletes self w g :
  self_state self = absent ->
  get_resource_group_result w (self_resource_group self) = inr g ->
  (forall resp,
      disks_get w (self_resource_group self) (self_name self) = inr resp ->
      attachment_unchanged self (Some (managed_disk_to_dict resp)) ->
      (self_check_mode self = false ->
       forall w',
         disks_delete w (self_resource_group self) (self_name self) = (inr tt, w') ->
         run (exec_module self) w
         = (Ok {| changed := true; state := RTrue |},
            (w', reads self
                 ++ [CallDisksDelete (self_resource_group self) (self_name self)])%list))
      /\ (self_check_mode self = true ->
          run (exec_module self) w
          = (Ok {| changed := true; state := RTrue |}, (w, reads self))))
  /\ (forall c m,
        disks_get w (self_resource_group self) (self_name self) = inl (CloudError c m) ->
        attachment_unchanged self None ->
        run (exec_module self) w
        = (Ok {| changed := false; state := RNone |}, (w, reads self))).
Proof.
  intros Hst Hrg.
  destruct (located_fields self g) as (Lrg & Lname & Lst & Lmb & Lck).
  rewrite exec_module_start, Hrg. unfold snapshot.
  assert (Hu : forall di, need_update (located self g) di = false).
  { intros di. unfold need_update. by rewrite Lst, Hst. }
  split.
  - intros resp -> Hmb.
    assert (Hd : need_delete (located self g) (Some (managed_disk_to_dict resp)) = true).
    { unfold need_delete. by rewrite Lst, Hst. }
    unfold reconcile, bind. rewrite update_phase_eq, Hu.
    rewrite attachment_phase_skip by by apply attachment_unchanged_need.
    rewrite delete_phase_eq, Hd, Lck, Lrg, Lname. split.
    + intros -> w' ->. done.
    + intros ->. done.
  - intros c m -> Hmb.
    unfold reconcile, bind. rewrite update_phase_eq, Hu.
    rewrite attachment_phase_skip by by apply attachment_unchanged_need.
    rewrite delete_phase_eq. unfold need_delete. rewrite Lst, Hst. done.
Qed.

(** ** Detach and attach *)

Lemma leftovers_of_filter data d :
  Forall named data ->
  leftovers_of data (RDict d)
  = inr (List.filter (fun e => negb (name_matches (d_name d) e)) data).
Proof.
  induction 1 as [|e data [n Hn] _ IH]; [done|].
  simpl. unfold name_matches at 1. rewrite Hn, IH. simpl.
  by destruct (negb _).
Qed.

Lemma filter_length_le {A} (f : A -> bool) l :
  (length (List.filter f l) <= length l)%nat.
Proof. induction l as [|x l IH]; simpl; [lia|]. destruct (f x); simpl; lia. Qed.

Lemma filter_length_eq {A} (f : A -> bool) l :
  length (List.filter f l) = length l <-> Forall (fun x => f x = true) l.
Proof.
  induction l as [|x l IH]; simpl.
  - split; [constructor|done].
  - pose proof (filter_length_le f l). destruct (f x) eqn:E; simpl.
    + split.
      * intros Hl. constructor; [done|]. apply IH. lia.
      * intros Hall. inversion Hall; subst. f_equal. by apply IH.
    + split; [lia|]. intros Hall. inversion Hall; congruence.
Qed.

Lemma leftovers_of_length data disk leftovers :
  leftovers_of data disk = inr leftovers -> (length leftovers <= length data)%nat.
Proof.
  revert leftovers. induction data as [|e data IH]; simpl; intros leftovers H.
  - simplify_eq. done.
  - destruct (dd_name e); [|done]. destruct (disk_get disk d_name); [done|].
    destruct (leftovers_of data disk) as [|l]; [done|].
    specialize (IH l eq_refl). destruct (negb _); simplify_eq; simpl; lia.
Qed.

Lemma detach_Ok self vm_name disk w t u w' t' :
  detach self vm_name disk (w, t) = (Ok u, (w', t')) ->
  exists vm data leftovers,
    virtual_machines_get w (self_resource_group self) vm_name = inr vm
    /\ data_disks vm = Some data
    /\ leftovers_of data disk = inr leftovers
    /\ (length leftovers < length data)%nat
    /\ virtual_machines_create_or_update w (self_resource_group self) vm_name
         {| vm_id := vm_id vm; data_disks := Some leftovers |} = (inr u, w')
    /\ t' = (t ++ [CallVirtualMachinesGet (self_resource_group self) vm_name;
                   CallVirtualMachinesCreateOrUpdate (self_resource_group self) vm_name
                     {| vm_id := vm_id vm; data_disks := Some leftovers |}])%list.
Proof.
  rewrite detach_eq. simpl.
  destruct (virtual_machines_get w _ vm_name) as [exc|vm]; [done|].
  destruct (data_disks vm) as [data|] eqn:Hdata; [|done].
  destruct (leftovers_of data disk) as [e|leftovers] eqn:Hleft; [done|].
  destruct (Nat.eqb_spec (length data) (length leftovers)) as [Hlen|Hlen].
  { destruct (disk_get disk d_name); done. }
  apply leftovers_of_length in Hleft as Hle.
  destruct (virtual_machines_create_or_update w _ vm_name _) as [[exc|u'] w1] eqn:Hup;
    simpl; intros H; simplify_eq.
  exists vm, data, leftovers. rewrite <- app_assoc. repeat split; auto. lia.
Qed.

Lemma attach_Ok self vm_name disk w t u w' t' :
  attach self vm_name disk (w, t) = (Ok u, (w', t')) ->
  exists vm d l,
    disk = RDict d
    /\ virtual_machines_get w (self_resource_group self) vm_name = inr vm
    /\ data_disks vm = Some l
    /\ virtual_machines_create_or_update w (self_resource_group self) vm_name
         {| vm_id := vm_id vm; data_disks := Some (l ++ [new_data_disk vm d])%list |}
       = (inr u, w')
    /\ t' = (t ++ [CallVirtualMachinesGet (self_resource_group self) vm_name;
                   CallVirtualMachinesCreateOrUpdate (self_resource_group self) vm_name
                     {| vm_id := vm_id vm;
                        data_disks := Some (l ++ [new_data_disk vm d])%list |}])%list.
Proof.
  rewrite attach_eq. simpl.
  destruct (virtual_machines_get w _ vm_name) as [exc|vm]; [done|].
  destruct disk as [|d|]; [done| |done].
  destruct (data_disks vm) as [l|] eqn:Hl; [|done].
  destruct (virtual_machines_create_or_update w _ vm_name _) as [[exc|u'] w1] eqn:Hup;
    simpl; intros H; simplify_eq.
  exists vm, d, l. rewrite <- app_assoc. repeat split; auto.
Qed.

(** [max_list] is the greatest element. *)
Lemma max_list_spec x l :
  (max_list x l = x \/ In (max_list x l) l)
  /\ x <= max_list x l /\ forall y, In y l -> y <= max_list x l.
Proof.
  unfold max_list. revert x. induction l as [|y l IH]; intros x; simpl.
  - split; [by left|]. split; [lia|]. intros y [].
  - destruct (IH (Z.max x y)) as (Hin & Hx & Hall).
    split; [|split].
    + destruct Hin as [Hin|Hin]; [|right; right; exact Hin].
      destruct (Z.max_spec x y) as [[_ E]|[_ E]]; rewrite E in *; auto.
    + lia.
    + intros z [->|Hz]; [lia|]. by apply Hall.
Qed.

(** The LUN of a new entry: 0 on a vm without data disks, else one more
    than the greatest LUN in use. *)
Lemma next_lun_spec vm l :
  data_disks vm = Some l ->
  (l = [] -> next_lun vm = 0)
  /\ (l <> [] ->
      (exists x, In x l /\ next_lun vm = lun x + 1)
      /\ forall x, In x l -> lun x < next_lun vm).
Proof.
  intros Hl. unfold next_lun. rewrite Hl. split; [by intros ->|].
  destruct l as [|d l]; [done|]. intros _. simpl.
  destruct (max_list_spec (lun d) (map lun l)) as (Hin & Hx & Hall). split.
  - destruct Hin as [E|Hin].
    + exists d. split; [by left|]. by rewrite E.
    + apply in_map_iff in Hin as (x & E & Hx'). exists x. split; [by right|].
      by rewrite E.
  - intros x [->|Hx']; [lia|].
    assert (lun x <= max_list (lun d) (map lun l)); [|lia].
    apply Hall. apply in_map_iff. eauto.
Qed.

Lemma attachment_phase_real_Ok self di c r mb w t c' r' s' :
  self_managed_by self = Some mb ->
  need_attachment self di = true -> self_check_mode self = false ->
  attachment_phase self di (c, r) (w, t) = (Ok (c', r'), s') ->
  exists lA lB,
    s'.2 = (t ++ lA ++ lB
              ++ [CallDisksGet (self_resource_group self) (self_name self)])%list
    /\ detached self (current_vm_name di) r w lA
    /\ attached self mb r lB.
Proof.
  intros Hmb Hn Hc H. erewrite attachment_phase_real in H by done. simpl in H.
  apply bind_Ok_inv in H as (u1 & [w1 t1] & H1 & H).
  apply bind_Ok_inv in H as (u2 & [w2 t2] & H2 & H).
  apply bind_Ok_inv in H as (rd & [w3 t3] & H3 & H).
  unfold ret in H. simplify_eq.
  rewrite get_managed_disk_eq in H3. simplify_eq. simpl.
  assert (exists lA, t1 = (t ++ lA)%list /\ detached self (current_vm_name di) r w lA)
    as (lA & -> & HA).
  { unfold detached. destruct (String.eqb (current_vm_name di) ""); simpl in H1.
    - unfold ret in H1. simplify_eq. exists []. by rewrite app_nil_r.
    - apply detach_Ok in H1 as (vm & data & left & ? & ? & ? & ? & ? & ->).
      eexists. split; [done|]. exists vm, data, left. auto. }
  assert (exists lB, t2 = ((t ++ lA) ++ lB)%list /\ attached self mb r lB)
    as (lB & -> & HB).
  { unfold attached. destruct (String.eqb mb ""); simpl in H2.
    - unfold ret in H2. simplify_eq. exists []. by rewrite app_nil_r.
    - apply attach_Ok in H2 as (vm & d & l & ? & ? & ? & ? & ->).
      eexists. split; [done|]. exists w1, vm, d, l. auto. }
  exists lA, lB. rewrite <- !app_assoc. auto.
Qed.

(** C5.  [detach], given a disk dict and a vm whose read succeeds and
    whose data-disk entries all carry a name: when no entry's name equals
    the disk's name up to case, it fails with the message that no disk
    with that name was found, having issued the vm read only and left the
    provider state alone; when some entry matches, it writes the vm back
    with exactly the non-matching entries, in their order, and returns or
    fails as that write does. *)
Theorem detach_removes_matching_entries self vm_name d w t vm data :
  virtual_machines_get w (self_resource_group self) vm_name = inr vm ->
  data_disks vm = Some data ->
  Forall named data ->
  (Forall (fun e => name_matches (d_name d) e = false) data ->
   detach self vm_name (RDict d) (w, t)
   = (Fail ("No disk with the name '" +:+ d_name d +:+ "' was found"),
      (w, t ++ [CallVirtualMachinesGet (self_resource_group self) vm_name])%list))
  /\ (Exists (fun e => name_matches (d_name d) e = true) data ->
      let vm' :=
        {| vm_id := vm_id vm;
           data_disks :=
             Some (List.filter (fun e => negb (name_matches (d_name d) e)) data) |} in
      let r :=
        virtual_machines_create_or_update w (self_resource_group self) vm_name vm' in
      detach self vm_name (RDict d) (w, t)
      = (match r.1 with
         | inr u => Ok u
         | inl exc =>
             Fail ("Error updating virtual machine " +:+ vm_name +:+ " - "
                   +:+ str_exc exc)
         end,
         (r.2, t ++ [CallVirtualMachinesGet (self_resource_group self) vm_name;
                     CallVirtualMachinesCreateOrUpdate (self_resource_group self)
                       vm_name vm'])%list)).
Proof.
  intros Hget Hdata Hnamed.
  rewrite detach_eq. cbv zeta. rewrite Hget, Hdata, leftovers_of_filter by done.
  pose proof (filter_length_eq (fun e => negb (name_matches (d_name d) e)) data) as Hlen.
  split.
  - intros Hnone.
    destruct (Nat.eqb_spec (length data)
                (length (List.filter (fun e => negb (name_matches (d_name d) e)) data)))
      as [E|E]; [done|].
    exfalso. apply E. symmetry. apply Hlen.
    eapply Forall_impl; [exact Hnone|]. by intros e ->.
  - intros Hsome.
    destruct (Nat.eqb_spec (length data)
                (length (List.filter (fun e => negb (name_matches (d_name d) e)) data)))
      as [E|E].
    + exfalso. symmetry in E. apply Hlen in E.
      apply Exists_exists in Hsome as (e & He & Hm).
      rewrite Forall_forall in E. specialize (E e He). by rewrite Hm in E.
    + by rewrite <- app_assoc.
Qed.

Lemma need_attachment_differs self g di mb :
  self_managed_by self = Some mb -> mb <> current_vm_name di ->
  need_attachment (located self g) di = true.
Proof.
  intros Hmb Hne. destruct (located_fields self g) as (_ & _ & _ & Lmb & _).
  unfold need_attachment. rewrite Lmb, Hmb. apply negb_true_iff.
  by apply String.eqb_neq.
Qed.

(** A run of the reconciliation that changes the attachment and returns,
    step by step, with the provider state each step saw. *)
Lemma reconcile_attachment_Ok self di w t r w' t' mb :
  self_check_mode self = false ->
  self_managed_by self = Some mb ->
  need_attachment self di = true ->
  reconcile self di (w, t) = (Ok r, (w', t')) ->
  exists l1 w1 r1 lA wa lB l3,
    t' = (t ++ l1 ++ lA ++ lB
            ++ CallDisksGet (self_resource_group self) (self_name self) :: l3)%list
    /\ (l1 = [] /\ w1 = w
        \/ exists aux,
            l1 = [CallDisksCreateOrUpdate (self_resource_group self) (self_name self)
                    (generate_managed_disk_property self)]
            /\ disks_create_or_update w (self_resource_group self) (self_name self)
                 (generate_managed_disk_property self) = (inr aux, w1))
    /\ (if String.eqb (current_vm_name di) "" then lA = [] /\ wa = w1
        else exists vm data leftovers u,
            virtual_machines_get w1 (self_resource_group self) (current_vm_name di)
            = inr vm
            /\ data_disks vm = Some data
            /\ leftovers_of data r1 = inr leftovers
            /\ (length leftovers < length data)%nat
            /\ virtual_machines_create_or_update w1 (self_resource_group self)
                 (current_vm_name di)
                 {| vm_id := vm_id vm; data_disks := Some leftovers |} = (inr u, wa)
            /\ lA = [CallVirtualMachinesGet (self_resource_group self)
                       (current_vm_name di);
                     CallVirtualMachinesCreateOrUpdate (self_resource_group self)
                       (current_vm_name di)
                       {| vm_id := vm_id vm; data_disks := Some leftovers |}])
    /\ (if String.eqb mb "" then lB = []
        else exists vm d l,
            r1 = RDict d
            /\ virtual_machines_get wa (self_resource_group self) mb = inr vm
            /\ data_disks vm = Some l
            /\ lB = [CallVirtualMachinesGet (self_resource_group self) mb;
                     CallVirtualMachinesCreateOrUpdate (self_resource_group self) mb
                       {| vm_id := vm_id vm;
                          data_disks := Some (l ++ [new_data_disk vm d])%list |}])
    /\ (l3 = [] \/ l3 = [CallDisksDelete (self_resource_group self) (self_name self)]).
Proof.
  intros Hc Hmb Hn H. unfold reconcile in H.
  apply bind_Ok_inv in H as ([c1 r1] & [w1 t1] & H1 & H).
  apply bind_Ok_inv in H as ([c2 r2] & [w2 t2] & H2 & H).
  apply bind_Ok_inv in H as ([c3 r3] & [w3 t3] & H3 & H).
  unfold ret in H. simplify_eq.
  assert (exists l1, t1 = (t ++ l1)%list
            /\ (l1 = [] /\ w1 = w
                \/ exists aux,
                    l1 = [CallDisksCreateOrUpdate (self_resource_group self)
                            (self_name self) (generate_managed_disk_property self)]
                    /\ disks_create_or_update w (self_resource_group self)
                         (self_name self) (generate_managed_disk_property self)
                       = (inr aux, w1))) as (l1 & -> & Hl1).
  { rewrite update_phase_eq, Hc in H1. destruct (need_update self di).
    - simpl in H1.
      destruct (disks_create_or_update w _ _ _) as [[[]|aux] w0]; simpl in H1;
        simplify_eq.
      eexists. split; [done|]. right. by exists aux.
    - simplify_eq. exists []. rewrite app_nil_r. auto. }
  assert (exists l3, t' = (t2 ++ l3)%list
            /\ (l3 = [] \/ l3 = [CallDisksDelete (self_resource_group self)
                                   (self_name self)])) as (l3 & -> & Hl3).
  { rewrite delete_phase_eq, Hc in H3. destruct (need_delete self di).
    - simpl in H3. destruct (disks_delete w2 _ _) as [[[]|] w0]; simpl in H3; simplify_eq.
      eauto.
    - simplify_eq. exists []. rewrite app_nil_r. auto. }
  erewrite attachment_phase_real in H2 by done. simpl in H2.
  apply bind_Ok_inv in H2 as (u1 & [wa ta] & Hd & H2).
  apply bind_Ok_inv in H2 as (u2 & [wb tb] & Ha & H2).
  apply bind_Ok_inv in H2 as (rd & [wc tc] & Hg & H2).
  unfold ret in H2. simplify_eq.
  rewrite get_managed_disk_eq in Hg. injection Hg as _ -> <-.
  assert (exists lA, ta = ((t ++ l1) ++ lA)%list
            /\ (if String.eqb (current_vm_name di) "" then lA = [] /\ wa = w1
                else exists vm data leftovers u,
                    virtual_machines_get w1 (self_resource_group self)
                      (current_vm_name di) = inr vm
                    /\ data_disks vm = Some data
                    /\ leftovers_of data r1 = inr leftovers
                    /\ (length leftovers < length data)%nat
                    /\ virtual_machines_create_or_update w1 (self_resource_group self)
                         (current_vm_name di)
                         {| vm_id := vm_id vm; data_disks := Some leftovers |}
                       = (inr u, wa)
                    /\ lA = [CallVirtualMachinesGet (self_resource_group self)
                               (current_vm_name di);
                             CallVirtualMachinesCreateOrUpdate
                               (self_resource_group self) (current_vm_name di)
                               {| vm_id := vm_id vm; data_disks := Some leftovers |}]))
    as (lA & -> & HA).
  { destruct (String.eqb (current_vm_name di) ""); simpl in Hd.
    - unfold ret in Hd. simplify_eq. exists []. by rewrite app_nil_r.
    - apply detach_Ok in Hd as (vm & data & left & ? & ? & ? & ? & ? & ->).
      eexists. split; [done|]. exists vm, data, left, u1. by split_and!. }
  assert (exists lB, tb = (((t ++ l1) ++ lA) ++ lB)%list
            /\ (if String.eqb mb "" then lB = []
                else exists vm d l,
                    r1 = RDict d
                    /\ virtual_machines_get wa (self_resource_group self) mb = inr vm
                    /\ data_disks vm = Some l
                    /\ lB = [CallVirtualMachinesGet (self_resource_group self) mb;
                             CallVirtualMachinesCreateOrUpdate
                               (self_resource_group self) mb
                               {| vm_id := vm_id vm;
                                  data_disks :=
                                    Some (l ++ [new_data_disk vm d])%list |}]))
    as (lB & -> & HB).
  { destruct (String.eqb mb ""); simpl in Ha.
    - unfold ret in Ha. simplify_eq. exists []. by rewrite app_nil_r.
    - apply attach_Ok in Ha as (vm & d & l & ? & ? & ? & ? & ->).
      eexists. split; [done|]. exists vm, d, l. by split_and!. }
  exists l1, w1, r1, lA, wa, lB, l3. split; [|by split_and!].
  rewrite <- !app_assoc. reflexivity.
Qed.

(** C4 (amended).  Outside check mode, for a disk the provider reports
    attached to vm [A] and [managed_by = B] with [A], [B] non-empty and
    different: every run that returns has written exactly two vms, [A]
    first and [B] second.  [A] is read on the provider state the run found
    or, when the disk was updated first, on the one that disk write left;
    it is written with fewer data-disk entries than that read gave.  [B]
    is read on the state the write of [A] left, and written with the
    entries that read gave and one more at the end, whose create option is
    attach and whose LUN is 0 when [B] had no data disk and else one more
    than the greatest LUN among them. *)
Theorem reattach_detaches_then_attaches self w resp A B r w' t :
  self_check_mode self = false ->
  disks_get w (self_resource_group self) (self_name self) = inr resp ->
  current_vm_name (Some (managed_disk_to_dict resp)) = A ->
  self_managed_by self = Some B ->
  A <> "" -> B <> "" -> B <> A ->
  run (exec_module self) w = (Ok r, (w', t)) ->
  changed r = true
  /\ exists g w1 vmA dataA lA wa vmB lB e,
      get_resource_group_result w (self_resource_group self) = inr g
      /\ (w1 = w
          \/ exists aux,
              disks_create_or_update w (self_resource_group self) (self_name self)
                (generate_managed_disk_property (located self g)) = (inr aux, w1))
      /\ virtual_machines_get w1 (self_resource_group self) A = inr vmA
      /\ data_disks vmA = Some dataA
      /\ (length lA < length dataA)%nat
      /\ virtual_machines_create_or_update w1 (self_resource_group self) A
           {| vm_id := vm_id vmA; data_disks := Some lA |} = (inr tt, wa)
      /\ virtual_machines_get wa (self_resource_group self) B = inr vmB
      /\ data_disks vmB = Some lB
      /\ List.filter is_vm_write t
         = [CallVirtualMachinesCreateOrUpdate (self_resource_group self) A
              {| vm_id := vm_id vmA; data_disks := Some lA |};
            CallVirtualMachinesCreateOrUpdate (self_resource_group self) B
              {| vm_id := vm_id vmB; data_disks := Some (lB ++ [e])%list |}]
      /\ dd_create_option e = DCOT_attach
      /\ (lB = [] -> lun e = 0)
      /\ (lB <> [] ->
          (exists x, In x lB /\ lun e = lun x + 1)
          /\ forall x, In x lB -> lun x < lun e).
Proof.
  intros Hc Hget HA Hmb HAne HBne Hne H.
  rewrite exec_module_start in H.
  destruct (get_resource_group_result w _) as [msg|g] eqn:Hg; [done|].
  destruct (located_fields self g) as (Lrg & Lname & Lst & Lmb & Lck).
  unfold snapshot in H. rewrite Hget in H.
  set (di := Some (managed_disk_to_dict resp)) in *.
  assert (Hn : need_attachment (located self g) di = true).
  { apply need_attachment_differs with B; congruence. }
  pose proof (reconcile_Ok_changed _ _ _ _ _ H) as Hch.
  split.
  { rewrite Hch. unfold predicted_changed. rewrite Hn. by rewrite orb_true_r. }
  apply reconcile_attachment_Ok with (mb := B) in H
    as (l1 & w1 & r1 & lA & wa & lB & l3 & -> & H1 & HdA & HaB & H3);
    [| congruence | congruence | done].
  rewrite (proj2 (String.eqb_neq _ _)) in HdA by congruence.
  destruct HdA as (vmA & dataA & lA' & [] & HvmA & HdataA & _ & Hlen & HwA & ->).
  rewrite (proj2 (String.eqb_neq _ _)) in HaB by done.
  destruct HaB as (vmB & d & lB' & _ & HvmB & HdataB & ->).
  rewrite Lrg, Lname in *. rewrite HA in *.
  exists g, w1, vmA, dataA, lA', wa, vmB, lB', (new_data_disk vmB d).
  destruct (next_lun_spec vmB lB' HdataB) as [N0 N1].
  split; [done|]. split.
  { destruct H1 as [(_ & ->)|(aux & _ & Hw)]; [by left|right; eauto]. }
  split_and!; auto.
  rewrite !List.filter_app.
  destruct H1 as [(-> & _)|(aux & -> & _)], H3 as [->| ->]; reflexivity.
Qed.


(** ** Validation *)


(** ** Two runs in succession *)

Lemma written_not_different d' p :
  disk_disk_size_gb d' = dp_disk_size_gb p ->
  disk_os_type d' = dp_os_type p ->
  (is_Some (dp_sku p) -> disk_sku d' = dp_sku p) ->
  (is_Some (dp_tags p) -> disk_tags d' = dp_tags p) ->
  (forall v, dp_os_type p = Some v -> lower v = v) ->
  is_different (managed_disk_to_dict d') p = false.
Proof.
  intros Hs Ho Hk Ht Hl. apply not_true_is_false. rewrite is_different_true.
  unfold code_is_different, declares_and_differs. simpl.
  intros [(n&E&_&N)|[(o&E&Ne&N)|[(k&E&N)|(tg&E&N)]]].
  - congruence.
  - rewrite Ho, E in N. simpl in N.
    rewrite (proj2 (String.eqb_neq o "")) in N by done. simpl in N.
    rewrite (Hl o E) in N. done.
  - destruct (dp_sku p) as [k'|] eqn:Ek; [|done].
    rewrite Hk in N by done. done.
  - rewrite Ht in N by (rewrite E; done). done.
Qed.

Lemma generate_os_type_located self g :
  dp_os_type (generate_managed_disk_property (located self g))
  = dp_os_type (generate_managed_disk_property self).
Proof. unfold located. by destruct (negb _). Qed.

(** C3 (amended).  Against a provider that stores what is written,
    outside check mode, with [managed_by] omitted and an os type that
    reads back as sent: whenever a run returns, the same invocation run
    again on the provider state it left returns [changed=false] after the
    two reads, leaving that state as it is; and the first run reports
    [changed=true] exactly when it issued a mutating call. *)
Theorem second_run_reports_unchanged self w r1 w1 t1 :
  stores_what_is_written ->
  self_check_mode self = false ->
  self_managed_by self = None ->
  os_type_stable self ->
  run (exec_module self) w = (Ok r1, (w1, t1)) ->
  (exists st,
      run (exec_module self) w1
      = (Ok {| changed := false; state := st |}, (w1, reads self)))
  /\ (changed r1 = true <-> Exists (fun c => mutating c = true) t1).
Proof.
  intros [Hcreate Hdelete] Hc Hmb Hos H.
  rewrite exec_module_start in H. rewrite exec_module_start.
  destruct (get_resource_group_result w _) as [msg|g] eqn:Hrg; [done|].
  destruct (located_fields self g) as (Lrg & Lname & Lst & Lmb & Lck).
  assert (Hna : forall di, need_attachment (located self g) di = false).
  { intros di. unfold need_attachment. by rewrite Lmb, Hmb. }
  assert (Hskip : forall di (s : W * list Call),
             need_update (located self g) di = false ->
             need_delete (located self g) di = false ->
             reconcile (located self g) di s
             = (Ok {| changed := false; state := result_of di |}, s)).
  { intros di [w0 t0] Hu Hd. unfold reconcile, bind.
    rewrite update_phase_eq, Hu, attachment_phase_skip by done.
    rewrite delete_phase_eq, Hd. done. }
  assert (Hreads : ~ Exists (fun c => mutating c = true) (reads self)).
  { intros Hex. unfold reads in Hex.
    repeat (apply Exists_cons in Hex as [Hex|Hex]; [discriminate|]).
    by apply Exists_nil in Hex. }
  destruct (snapshot self w) as [di| |] eqn:Hsnap; [|done..].
  destruct (need_update (located self g) di) eqn:Hu.
  - (* the first run wrote the disk *)
    unfold reconcile in H.
    apply bind_Ok_inv in H as ([c1 r1'] & [w2 t2] & H1 & H).
    rewrite update_phase_eq, Hu, Lck, Hc in H1. simpl in H1.
    destruct (disks_create_or_update w _ _ _) as [[e|aux] w3] eqn:Hcr;
      [destruct e; done|]. simpl in H1. simplify_eq.
    unfold bind in H. rewrite attachment_phase_skip in H by done.
    rewrite delete_phase_eq in H.
    assert (Hst : self_state (located self g) = present).
    { unfold need_update in Hu. by destruct (self_state (located self g)). }
    unfold need_delete in H. rewrite Hst in H. unfold ret in H. simplify_eq.
    destruct (Hcreate _ _ _ _ _ _ Hcr) as (Hrg' & d' & Hget' & Hs' & Ho' & Hk' & Ht').
    rewrite Lrg in Hrg', Hget'. rewrite Lname in Hget'.
    rewrite Hrg', Hrg. unfold snapshot at 1. rewrite Hget'. split.
    + eexists. apply Hskip.
      * unfold need_update. rewrite Hst.
        apply written_not_different; try done.
        intros v. rewrite generate_os_type_located. apply Hos.
      * unfold need_delete. by rewrite Hst.
    + simpl. split; [intros _|done].
      unfold reads. rewrite !Exists_cons. simpl. auto.
  - destruct (need_delete (located self g) di) eqn:Hd.
    + (* the first run deleted the disk *)
      unfold reconcile, bind in H. rewrite update_phase_eq, Hu in H.
      rewrite attachment_phase_skip in H by done.
      rewrite delete_phase_eq, Hd, Lck, Hc in H. simpl in H.
      destruct (disks_delete w _ _) as [[e|u] w3] eqn:Hdel;
        [destruct e; done|]. simpl in H. unfold ret in H. simplify_eq.
      destruct (Hdelete _ _ _ _ _ Hdel) as (Hrg' & c & m & Hget').
      rewrite Lrg in Hrg', Hget'. rewrite Lname in Hget'.
      rewrite Hrg', Hrg. unfold snapshot at 1. rewrite Hget'.
      assert (Hst : self_state (located self g) = absent).
      { unfold need_delete in Hd. by destruct (self_state (located self g)). }
      split.
      * eexists. apply Hskip.
        -- unfold need_update. by rewrite Hst.
        -- unfold need_delete. by rewrite Hst.
      * simpl. split; [intros _|done].
        unfold reads. rewrite !Exists_cons. simpl. auto.
    + (* the first run changed nothing *)
      rewrite Hskip in H by done. simplify_eq.
      rewrite Hrg, Hsnap, Hskip by done. split; [eauto|].
      simpl. split; [done|]. intros Hex. by destruct Hreads.
Qed.

End Properties.

(** * Further properties of the module *)

(** ** Lower-casing *)

Lemma lower_ascii_idempotent c : lower_ascii (lower_ascii c) = lower_ascii c.
Proof. destruct c as [[] [] [] [] [] [] [] []]; reflexivity. Qed.

Lemma lower_idempotent s : lower (lower s) = lower s.
Proof.
  induction s as [|c s IH]; [done|]. simpl. by rewrite lower_ascii_idempotent, IH.
Qed.

Lemma lower_nonempty s : s <> "" -> lower s <> "".
Proof. destruct s; [done|]. simpl. discriminate. Qed.

(** ** The disk dict and the disk parameters *)

Lemma d_os_type_normal managed_disk v :
  d_os_type (managed_disk_to_dict managed_disk) = Some v -> v <> "" /\ lower v = v.
Proof.
  simpl. destruct (disk_os_type managed_disk) as [o|]; simpl; [|done].
  destruct (String.eqb_spec o ""); simpl; [done|].
  intros [= <-]. split; [by apply lower_nonempty|apply lower_idempotent].
Qed.

(** X1.  The dict [managed_disk_to_dict] builds is normalised: its os type
    is never the empty string and is already lower-case, and its create
    option is already lower-case. *)
Theorem managed_disk_to_dict_normalised managed_disk :
  (forall v, d_os_type (managed_disk_to_dict managed_disk) = Some v ->
             v <> "" /\ lower v = v)
  /\ lower (d_create_option (managed_disk_to_dict managed_disk))
     = d_create_option (managed_disk_to_dict managed_disk).
Proof.
  split; [apply d_os_type_normal|apply lower_idempotent].
Qed.

Lemma os_type_case_always_differs managed_disk p v :
  dp_os_type p = Some v -> v <> "" -> lower v <> v ->
  is_different (managed_disk_to_dict managed_disk) p = true.
Proof.
  intros Hv Hne Hlow. apply is_different_true. right. left.
  exists v. split; [done|]. split; [done|].
  intros Hd. apply d_os_type_normal in Hd as [_ Hd]. done.
Qed.

Section CoverageProofs.
Context `{sdk : Sdk} {W : Type} `{cloud : Cloud W}.

Local Open Scope run_scope.
Implicit Types (self : Module) (w : W) (t : list Call) (s : W * list Call).

(** X2.  The source reference survives the trip through the disk
    parameters and back through the dict, when the provider keeps the
    creation data it is sent: for import and copy with a non-empty
    [source_uri] the dict's [source_uri] is that reference (for copy it
    comes back from the resource-id field); with the create option empty
    or omitted the reference is dropped and the dict has none. *)
Theorem source_uri_round_trip self managed_disk :
  keeps_creation_data managed_disk (generate_managed_disk_property self) ->
  ((self_create_option self = Some co_import \/ self_create_option self = Some co_copy) ->
   truthy_str (self_source_uri self) = true ->
   d_source_uri (managed_disk_to_dict managed_disk) = self_source_uri self)
  /\ ((self_create_option self = None \/ self_create_option self = Some co_empty) ->
      d_source_uri (managed_disk_to_dict managed_disk) = None).
Proof.
  unfold keeps_creation_data. simpl. intros [Hu Hr]. split.
  - intros [Hc|Hc] Ht; rewrite Hc in Hu, Hr; simpl in Hu, Hr; rewrite Hu, Hr.
    + by rewrite Ht.
    + done.
  - intros [Hc|Hc]; rewrite Hc in Hu, Hr; simpl in Hu, Hr; by rewrite Hu, Hr.
Qed.

(** ** A returning run, piece by piece *)

Lemma filter_none (f : Call -> bool) (P : Call -> Prop) l :
  Forall P l -> (forall c, P c -> f c = false) -> List.filter f l = [].
Proof.
  intros HP Hf. induction HP as [|c l Hc _ IH]; [done|].
  simpl. by rewrite (Hf c Hc).
Qed.

(** Outside check mode, the trace of a run that returns: the disk write
    when an update was needed, the vm calls and the re-read of the
    attachment pass when the attachment had to change, the delete when
    one was needed. *)
Lemma reconcile_Ok_parts self di w t r w' t' :
  self_check_mode self = false ->
  reconcile self di (w, t) = (Ok r, (w', t')) ->
  changed r = predicted_changed self di
  /\ exists l1 l2 l3 r1 w1 w2,
      t' = (t ++ l1 ++ l2 ++ l3)%list
      /\ (if need_update self di
          then l1 = [CallDisksCreateOrUpdate (self_resource_group self) (self_name self)
                       (generate_managed_disk_property self)]
          else l1 = [] /\ w1 = w /\ r1 = result_of di)
      /\ (need_attachment self di = false -> l2 = [] /\ w2 = w1 /\ state r = if need_delete self di then RTrue else r1)
      /\ (forall mb,
            self_managed_by self = Some mb -> need_attachment self di = true ->
            exists lA lB,
              l2 = (lA ++ lB
                    ++ [CallDisksGet (self_resource_group self) (self_name self)])%list
              /\ detached self (current_vm_name di) r1 w1 lA
              /\ attached self mb r1 lB
              /\ (need_delete self di = false ->
                  state r = result_of (match snapshot self w2 with
                                       | Ok d => d
                                       | _ => None
                                       end)
                  /\ exists d, snapshot self w2 = Ok d))
      /\ (if need_delete self di
          then l3 = [CallDisksDelete (self_resource_group self) (self_name self)]
          else l3 = [] /\ w' = w2).
Proof.
  intros Hc H. split; [by eapply reconcile_Ok_changed|].
  unfold reconcile in H.
  apply bind_Ok_inv in H as ([c1 r1] & [w1 t1] & H1 & H).
  apply bind_Ok_inv in H as ([c2 r2] & [w2 t2] & H2 & H).
  apply bind_Ok_inv in H as ([c3 r3] & [w3 t3] & H3 & H).
  unfold ret in H. simplify_eq.
  assert (exists l1, t1 = (t ++ l1)%list
            /\ (if need_update self di
                then l1 = [CallDisksCreateOrUpdate (self_resource_group self)
                             (self_name self) (generate_managed_disk_property self)]
                else l1 = [] /\ w1 = w /\ r1 = result_of di)) as (l1 & -> & Hl1).
  { rewrite update_phase_eq, Hc in H1. destruct (need_update self di).
    - simpl in H1.
      destruct (disks_create_or_update w _ _ _) as [[[]|] w0]; simpl in H1; simplify_eq.
      eauto.
    - simplify_eq. exists []. by rewrite app_nil_r. }
  assert (exists l3, t' = (t2 ++ l3)%list
            /\ r3 = (if need_delete self di then RTrue else r2)
            /\ (if need_delete self di
                then l3 = [CallDisksDelete (self_resource_group self) (self_name self)]
                else l3 = [] /\ w' = w2)) as (l3 & -> & -> & Hl3).
  { rewrite delete_phase_eq, Hc in H3. destruct (need_delete self di).
    - simpl in H3. destruct (disks_delete w2 _ _) as [[[]|] w0]; simpl in H3; simplify_eq.
      eauto.
    - simplify_eq. exists []. by rewrite app_nil_r. }
  destruct (need_attachment self di) eqn:Hn.
  - unfold need_attachment in Hn.
    destruct (self_managed_by self) as [mb|] eqn:Hmb; [|done].
    pose proof H2 as H2'.
    apply attachment_phase_real_Ok with (mb := mb) in H2 as (lA & lB & E2 & HdA & HaB);
      [| done | by unfold need_attachment; rewrite Hmb | done].
    simpl in E2. subst t2.
    exists l1, (lA ++ lB ++ [CallDisksGet (self_resource_group self) (self_name self)])%list,
      l3, r1, w1, w2.
    split; [by rewrite <- !app_assoc|]. split; [done|]. split; [done|].
    split; [|done]. intros mb' [= <-] _. exists lA, lB. split; [done|].
    split; [done|]. split; [done|]. intros Hd. rewrite Hd. simpl.
    erewrite attachment_phase_real in H2';
      [| done | by unfold need_attachment; rewrite Hmb | done].
    apply bind_Ok_inv in H2' as (u1 & [wa ta] & _ & H2').
    apply bind_Ok_inv in H2' as (u2 & [wb tb] & _ & H2').
    apply bind_Ok_inv in H2' as (rd & [wc tc] & Hg & H2').
    unfold ret in H2'. simplify_eq.
    rewrite get_managed_disk_eq in Hg. fold (snapshot self wb) in Hg.
    injection Hg as Ho -> _.
    destruct (snapshot self w2) as [d| |]; simplify_eq. eauto.
  - rewrite attachment_phase_skip in H2 by done. simplify_eq.
    eexists l1, [], l3, _, _, _. simpl.
    split; [by rewrite <- app_assoc|]. split; [exact Hl1|]. split; [done|]. split; [|exact Hl3].
    intros mb _ ?. done.
Qed.

Lemma exec_module_Ok_inv self w r w' t :
  run (exec_module self) w = (Ok r, (w', t)) ->
  exists g di,
    get_resource_group_result w (self_resource_group self) = inr g
    /\ snapshot self w = Ok di
    /\ reconcile (located self g) di (w, reads self) = (Ok r, (w', t)).
Proof.
  rewrite exec_module_start.
  destruct (get_resource_group_result w _) as [msg|g]; [done|].
  destruct (snapshot self w) as [di| |]; [|done..]. eauto.
Qed.

Lemma need_attachment_true self di :
  need_attachment self di = true ->
  exists mb, self_managed_by self = Some mb /\ mb <> current_vm_name di.
Proof.
  unfold need_attachment. destruct (self_managed_by self) as [mb|]; [|done].
  intros Hn. exists mb. split; [done|]. apply String.eqb_neq. by apply negb_true_iff.
Qed.

(** When the attachment has to change, one of the two steps writes a vm. *)
Lemma attachment_lists_write self A mb r w lA lB l :
  mb <> A -> detached self A r w lA -> attached self mb r lB ->
  Exists (fun c => is_vm_write c = true) (lA ++ lB ++ l).
Proof.
  unfold detached, attached. intros Hne HdA HaB.
  destruct (String.eqb_spec A "") as [EA|EA].
  - destruct (String.eqb_spec mb "") as [EB|EB]; [congruence|].
    destruct HaB as (wB & vmB' & d & lB' & _ & _ & _ & ->). subst lA. simpl.
    apply Exists_cons_tl, Exists_cons_hd. done.
  - destruct HdA as (vmA' & dataA & lA' & _ & _ & _ & _ & ->). simpl.
    apply Exists_cons_tl, Exists_cons_hd. done.
Qed.

(** ** What a run writes, and what it reports *)

(** X3.  Outside check mode, a run that returns reports [changed=true]
    exactly when it issued a mutating call (a disk create-or-update, a vm
    write or a disk delete). *)
Theorem changed_iff_mutating_call self w r w' t :
  self_check_mode self = false ->
  run (exec_module self) w = (Ok r, (w', t)) ->
  changed r = true <-> Exists (fun c => mutating c = true) t.
Proof.
  intros Hc H. apply exec_module_Ok_inv in H as (g & di & _ & _ & H).
  destruct (located_fields self g) as (_ & _ & _ & _ & Lck).
  apply reconcile_Ok_parts in H as (Hch & l1 & l2 & l3 & r1 & w1 & w2 & -> & H1 & H2n & H2 & H3);
    [|congruence].
  rewrite Hch. unfold predicted_changed.
  destruct (need_update (located self g) di) eqn:Hu.
  { subst l1. split; [intros _|done]. unfold reads. simpl.
    do 2 apply Exists_cons_tl. by apply Exists_cons_hd. }
  destruct H1 as (-> & _ & _).
  destruct (need_attachment (located self g) di) eqn:Hn.
  { split; [intros _|done].
    destruct (need_attachment_true _ _ Hn) as (mb & Hmb & Hne).
    destruct (H2 mb Hmb eq_refl) as (lA & lB & -> & HdA & HaB & _).
    apply Exists_app. right. apply Exists_app. right. apply Exists_app. left.
    eapply Exists_impl; [eapply attachment_lists_write; eauto|].
    by intros [] ?. }
  destruct (H2n eq_refl) as (-> & _ & _).
  destruct (need_delete (located self g) di).
  { subst l3. split; [intros _|done]. unfold reads. simpl.
    do 2 apply Exists_cons_tl. by apply Exists_cons_hd. }
  destruct H3 as (-> & _). simpl. split; [done|].
  intros Hex. repeat (apply Exists_cons in Hex as [Hex|Hex]; [discriminate|]).
  by apply Exists_nil in Hex.
Qed.

(** X4.  Detach only.  Outside check mode, with [managed_by] the empty
    string and the disk attached to a vm [A], a run that returns has
    written exactly one vm: [A], with fewer data-disk entries than the
    read of [A] gave.  That read saw the provider state the run started
    from, or the one a successful disk write of this run left.  No other
    vm is read or written. *)
Theorem empty_managed_by_detaches_only self w resp A r w' t :
  self_check_mode self = false ->
  disks_get w (self_resource_group self) (self_name self) = inr resp ->
  current_vm_name (Some (managed_disk_to_dict resp)) = A ->
  A <> "" ->
  self_managed_by self = Some "" ->
  run (exec_module self) w = (Ok r, (w', t)) ->
  Forall (fun c => is_vm_call c -> on_vm A c) t
  /\ exists w1 vm data leftovers,
      (w1 = w
       \/ exists p aux,
           disks_create_or_update w (self_resource_group self) (self_name self) p
           = (inr aux, w1))
      /\ virtual_machines_get w1 (self_resource_group self) A = inr vm
      /\ data_disks vm = Some data
      /\ (length leftovers < length data)%nat
      /\ List.filter is_vm_write t
         = [CallVirtualMachinesCreateOrUpdate (self_resource_group self) A
              {| vm_id := vm_id vm; data_disks := Some leftovers |}].
Proof.
  intros Hc Hget HA HAne Hmb H.
  apply exec_module_Ok_inv in H as (g & di & _ & Hsnap & H).
  unfold snapshot in Hsnap. rewrite Hget in Hsnap. simplify_eq.
  destruct (located_fields self g) as (Lrg & Lname & _ & Lmb & Lck).
  set (di := Some (managed_disk_to_dict resp)) in *.
  apply reconcile_attachment_Ok with (mb := "") in H
    as (l1 & w1 & r1 & lA & wa & lB & l3 & -> & H1 & HdA & HaB & H3); [|congruence..|].
  2:{ apply need_attachment_differs with ""; [done|]. by intros E; apply HAne. }
  rewrite (proj2 (String.eqb_neq _ _)) in HdA by done.
  destruct HdA as (vm & data & left & u & Hvm & Hdata & _ & Hlen & _ & ->).
  simpl in HaB. subst lB. rewrite Lrg, Lname in *.
  assert (Hl1 : Forall (fun c => is_vm_call c -> on_vm (current_vm_name di) c) l1
                /\ List.filter is_vm_write l1 = []).
  { destruct H1 as [(-> & _)|(aux & -> & _)]; split; try done;
      repeat constructor; done. }
  assert (Hl3 : Forall (fun c => is_vm_call c -> on_vm (current_vm_name di) c) l3
                /\ List.filter is_vm_write l3 = []).
  { destruct H3 as [->| ->]; split; try done; repeat constructor; done. }
  destruct Hl1 as [F1 E1], Hl3 as [F3 E3]. split.
  - rewrite !Forall_app. split_and!; try done; repeat constructor; try done.
  - exists w1, vm, data, left. split.
    { destruct H1 as [(_ & ->)|(aux & _ & Hw)]; [by left|right; eauto]. }
    split; [done|]. split; [done|]. split; [done|].
    rewrite !List.filter_app, E1. simpl. rewrite E3. reflexivity.
Qed.

(** X5.  Attach only.  Outside check mode, with the disk attached to no
    vm and [managed_by] a vm [B], a run that returns has written exactly
    one vm: [B], with the entries the read of [B] gave and one more at the
    end.  That read saw the provider state the run started from, or the
    one a successful disk write of this run left.  No other vm is read or
    written. *)
Theorem unattached_disk_attaches_only self w resp B r w' t :
  self_check_mode self = false ->
  disks_get w (self_resource_group self) (self_name self) = inr resp ->
  current_vm_name (Some (managed_disk_to_dict resp)) = "" ->
  self_managed_by self = Some B ->
  B <> "" ->
  run (exec_module self) w = (Ok r, (w', t)) ->
  Forall (fun c => is_vm_call c -> on_vm B c) t
  /\ exists w1 vm l d,
      (w1 = w
       \/ exists p aux,
           disks_create_or_update w (self_resource_group self) (self_name self) p
           = (inr aux, w1))
      /\ virtual_machines_get w1 (self_resource_group self) B = inr vm
      /\ data_disks vm = Some l
      /\ List.filter is_vm_write t
         = [CallVirtualMachinesCreateOrUpdate (self_resource_group self) B
              {| vm_id := vm_id vm;
                 data_disks := Some (l ++ [new_data_disk vm d])%list |}].
Proof.
  intros Hc Hget HA Hmb HBne H.
  apply exec_module_Ok_inv in H as (g & di & _ & Hsnap & H).
  unfold snapshot in Hsnap. rewrite Hget in Hsnap. simplify_eq.
  destruct (located_fields self g) as (Lrg & Lname & Lst & Lmb & Lck).
  set (di := Some (managed_disk_to_dict resp)) in *.
  apply reconcile_attachment_Ok with (mb := B) in H
    as (l1 & w1 & r1 & lA & wa & lB & l3 & -> & H1 & HdA & HaB & H3); [|congruence..|].
  2:{ apply need_attachment_differs with B; [done|]. by rewrite HA. }
  rewrite HA in HdA. simpl in HdA. destruct HdA as (-> & ->).
  rewrite (proj2 (String.eqb_neq _ _)) in HaB by done.
  destruct HaB as (vm & d & l & Hr1 & Hvm & Hl & ->). rewrite Lrg, Lname in *.
  assert (Hl1 : Forall (fun c => is_vm_call c -> on_vm B c) l1
                /\ List.filter is_vm_write l1 = []).
  { destruct H1 as [(-> & _)|(aux & -> & _)]; split; try done;
      repeat constructor; done. }
  assert (Hl3 : Forall (fun c => is_vm_call c -> on_vm B c) l3
                /\ List.filter is_vm_write l3 = []).
  { destruct H3 as [->| ->]; split; try done; repeat constructor; done. }
  destruct Hl1 as [F1 E1], Hl3 as [F3 E3]. split.
  - rewrite !Forall_app. split_and!; try done; repeat constructor; try done.
  - exists w1, vm, l, d. split.
    { destruct H1 as [(_ & ->)|(aux & _ & Hw)]; [by left|right; eauto]. }
    split; [done|]. split; [done|].
    rewrite !List.filter_app, E1. simpl. rewrite E3. reflexivity.
Qed.

(** X6.  After a change of attachment the state returned is read anew.
    With [state=present], outside check mode, when [managed_by] differs
    from the vm the disk is attached to, a run that returns reports as
    [state] what one more disk read gives on the provider state it leaves:
    the disk's dict, or [None] when that read raises a [CloudError]. *)
Theorem attachment_change_returns_fresh_read self w r w' t mb di :
  self_state self = present ->
  self_check_mode self = false ->
  self_managed_by self = Some mb ->
  snapshot self w = Ok di ->
  mb <> current_vm_name di ->
  run (exec_module self) w = (Ok r, (w', t)) ->
  exists di', snapshot self w' = Ok di' /\ state r = result_of di'.
Proof.
  intros Hst Hc Hmb Hsnap Hne H.
  apply exec_module_Ok_inv in H as (g & di0 & _ & Hsnap' & H).
  rewrite Hsnap in Hsnap'. simplify_eq.
  destruct (located_fields self g) as (Lrg & Lname & Lst & Lmb & Lck).
  apply reconcile_Ok_parts in H as (_ & l1 & l2 & l3 & r1 & w1 & w2 & -> & _ & _ & H2 & H3);
    [|congruence].
  assert (Hd : need_delete (located self g) di0 = false).
  { unfold need_delete. by rewrite Lst, Hst. }
  rewrite Hd in H3. destruct H3 as (_ & ->).
  destruct (H2 mb) as (lA & lB & _ & _ & _ & Hfresh); [congruence| |].
  { by apply need_attachment_differs with mb. }
  destruct (Hfresh Hd) as (Hs & d & Hd').
  assert (Hsame : snapshot (located self g) w2 = snapshot self w2).
  { unfold snapshot. by rewrite Lrg, Lname. }
  rewrite Hsame in Hs, Hd'. exists d. split; [done|]. by rewrite Hs, Hd'.
Qed.

(** ** What no run does *)

Lemma reconcile_trace_no_attachment self di w t :
  need_attachment self di = false ->
  exists l1 l3,
    (reconcile self di (w, t)).2.2 = (t ++ l1 ++ l3)%list
    /\ Forall is_disks_create_or_update l1
    /\ Forall is_disks_delete l3.
Proof.
  intros Hn. unfold reconcile, bind.
  destruct (update_phase_trace self di w t) as (l1 & E1 & F1).
  assert (F1' : Forall is_disks_create_or_update l1).
  { destruct F1 as [->|(_ & _ & ->)]; repeat constructor. }
  destruct (update_phase self di (w, t)) as [[cr1|msg|e] [w1 t1]]; simpl in E1; subst t1;
    [| exists l1, []; rewrite !app_nil_r; auto..].
  rewrite attachment_phase_skip by done.
  destruct (delete_phase_trace self di cr1 w1 (t ++ l1)%list) as (l3 & E3 & F3).
  assert (F3' : Forall is_disks_delete l3).
  { destruct F3 as [->|(_ & _ & ->)]; repeat constructor. }
  destruct (delete_phase self di cr1 _) as [[[c3 r3]|msg|e] [w3 t3]]; simpl in E3; subst t3;
    exists l1, l3; simpl; rewrite <- ?app_assoc; auto.
Qed.

(** X7.  With [managed_by] omitted no run, whatever its outcome, reads or
    writes a virtual machine, and the disk is read once. *)
Theorem omitted_managed_by_touches_no_vm self w :
  self_managed_by self = None ->
  Forall (fun c => ~ is_vm_call c) (run (exec_module self) w).2.2
  /\ (length (List.filter is_disk_read (run (exec_module self) w).2.2) <= 1)%nat.
Proof.
  intros Hmb. rewrite exec_module_start.
  destruct (get_resource_group_result w _) as [msg|g]; simpl.
  { split; [repeat constructor; auto|lia]. }
  destruct (snapshot self w) as [di| |]; simpl;
    try (split; [repeat constructor; auto|lia]).
  destruct (located_fields self g) as (_ & _ & _ & Lmb & _).
  destruct (reconcile_trace_no_attachment (located self g) di w (reads self))
    as (l1 & l3 & -> & F1 & F3).
  { unfold need_attachment. by rewrite Lmb, Hmb. }
  split.
  - rewrite !Forall_app. split_and!.
    + repeat constructor; auto.
    + eapply Forall_impl; [exact F1|]. intros c Hc Hv. by destruct c.
    + eapply Forall_impl; [exact F3|]. intros c Hc Hv. by destruct c.
  - rewrite !List.filter_app, !length_app.
    rewrite (filter_none _ _ l1 F1) by by intros [].
    rewrite (filter_none _ _ l3 F3) by by intros [].
    simpl. lia.
Qed.

(** X8.  No run writes the disk twice, and the one write it may issue
    carries the whole normalised target for this disk, with the location
    settled: the [location] argument when it is non-empty, else the
    resource group's. *)
Theorem at_most_one_disk_write self w :
  List.filter is_disk_write (run (exec_module self) w).2.2 = []
  \/ exists g,
      get_resource_group_result w (self_resource_group self) = inr g
      /\ List.filter is_disk_write (run (exec_module self) w).2.2
         = [CallDisksCreateOrUpdate (self_resource_group self) (self_name self)
              (generate_managed_disk_property (located self g))]
      /\ dp_location (generate_managed_disk_property (located self g))
         = resolved_location self g.
Proof.
  rewrite exec_module_start.
  destruct (get_resource_group_result w _) as [msg|g]; simpl; [by left|].
  destruct (snapshot self w) as [di| |]; simpl; try by left.
  destruct (located_fields self g) as (Lrg & Lname & _).
  destruct (reconcile_trace (located self g) di w (reads self))
    as (l1 & l2 & l3 & -> & F1 & F2 & F3).
  rewrite !List.filter_app.
  rewrite (filter_none is_disk_write _ l2 F2) by by intros [] [[]|[]].
  assert (E3 : List.filter is_disk_write l3 = []).
  { by destruct F3 as [->|(_ & _ & ->)]. }
  rewrite E3. destruct F1 as [->|(_ & _ & ->)]; [by left|].
  right. exists g. rewrite Lrg, Lname. split; [done|]. split; [done|].
  unfold located, resolved_location.
  destruct (truthy_str (self_location self)); done.
Qed.

Lemma attachment_calls_no_disk_write l :
  Forall (fun c => is_vm_call c \/ is_disks_get c) l ->
  Forall (fun c => ~ is_disks_delete c) l
  /\ Forall (fun c => ~ is_disks_create_or_update c) l.
Proof.
  intros F. split; (eapply Forall_impl; [exact F|]);
    intros c [Hc|Hc] Hd; by destruct c.
Qed.

(** X9.  [state=present] never deletes the disk and [state=absent] never
    creates or updates it, whatever else the run does and however it
    ends. *)
Theorem state_rules_out_the_other_write self w :
  (self_state self = present ->
   Forall (fun c => ~ is_disks_delete c) (run (exec_module self) w).2.2)
  /\ (self_state self = absent ->
      Forall (fun c => ~ is_disks_create_or_update c) (run (exec_module self) w).2.2).
Proof.
  rewrite exec_module_start.
  destruct (get_resource_group_result w _) as [msg|g]; simpl.
  { split; intros _; repeat constructor; auto. }
  destruct (snapshot self w) as [di| |]; simpl;
    try solve [split; intros _; repeat constructor; auto].
  destruct (located_fields self g) as (_ & _ & Lst & _).
  destruct (reconcile_trace (located self g) di w (reads self))
    as (l1 & l2 & l3 & -> & F1 & F2 & F3).
  destruct (attachment_calls_no_disk_write l2 F2) as [F2d F2w].
  assert (Fr : Forall (fun c => ~ is_disks_delete c) (reads self)
               /\ Forall (fun c => ~ is_disks_create_or_update c) (reads self)).
  { split; repeat constructor; auto. }
  destruct Fr as [Frd Frw].
  split; intros Hst; rewrite !Forall_app; split_and!; try done.
  - destruct F1 as [->|(_ & _ & ->)]; repeat constructor; auto.
  - destruct F3 as [->|(Hd & _)]; [constructor|].
    unfold need_delete in Hd. by rewrite Lst, Hst in Hd.
  - destruct F1 as [->|(Hu & _)]; [constructor|].
    unfold need_update in Hu. by rewrite Lst, Hst in Hu.
  - destruct F3 as [->|(_ & _ & ->)]; repeat constructor; auto.
Qed.

(** ** Attach and its failures *)

(** X10.  [attach], on a disk dict and a vm that reads with a data-disk
    list, writes the vm back with every entry it had, in order, and one
    new entry at the end: that entry refers to the disk by its id and
    storage account type, carries no name, and its LUN is in use by no
    entry the vm already had.  The provider state is what the vm write
    leaves. *)
Theorem attach_appends_entry_with_fresh_lun self vm_name d w t vm l :
  virtual_machines_get w (self_resource_group self) vm_name = inr vm ->
  data_disks vm = Some l ->
  exists e,
    (attach self vm_name (RDict d) (w, t)).2
    = ((virtual_machines_create_or_update w (self_resource_group self) vm_name
          {| vm_id := vm_id vm; data_disks := Some (l ++ [e])%list |}).2,
       (t ++ [CallVirtualMachinesGet (self_resource_group self) vm_name;
              CallVirtualMachinesCreateOrUpdate (self_resource_group self) vm_name
                {| vm_id := vm_id vm; data_disks := Some (l ++ [e])%list |}])%list)
    /\ dd_managed_disk e
       = Some {| mdp_id := Some (d_id d);
                 mdp_storage_account_type := d_storage_account_type d |}
    /\ dd_name e = None
    /\ Forall (fun x => lun x <> lun e) l.
Proof.
  intros Hget Hl. exists (new_data_disk vm d).
  rewrite attach_eq. cbv zeta. rewrite Hget, Hl. simpl. rewrite <- app_assoc.
  split; [done|]. split; [done|]. split; [done|].
  destruct (next_lun_spec vm l Hl) as [_ Hmax].
  destruct l as [|x0 l0]; [constructor|].
  destruct Hmax as [_ Hlt]; [done|].
  apply Forall_forall. intros x Hx. apply list_elem_of_In in Hx.
  specialize (Hlt x Hx). lia.
Qed.

(** X11.  The disk is absent, [state=absent] and [managed_by] names a vm:
    outside check mode the run reads that vm and then ends in an uncaught
    [AttributeError], [attach] having been handed [None] for the disk.  No
    mutating call is issued and the provider state is untouched. *)
Theorem attach_of_absent_disk_raises self w g c m B vm :
  self_state self = absent ->
  self_check_mode self = false ->
  self_managed_by self = Some B ->
  B <> "" ->
  get_resource_group_result w (self_resource_group self) = inr g ->
  disks_get w (self_resource_group self) (self_name self) = inl (CloudError c m) ->
  virtual_machines_get w (self_resource_group self) B = inr vm ->
  run (exec_module self) w
  = (Raise (AttributeError "'NoneType' object has no attribute 'get'"),
     (w, reads self ++ [CallVirtualMachinesGet (self_resource_group self) B])%list).
Proof.
  intros Hst Hc Hmb HB Hrg Hget Hvm.
  destruct (located_fields self g) as (Lrg & Lname & Lst & Lmb & Lck).
  rewrite exec_module_start, Hrg. unfold snapshot. rewrite Hget.
  unfold reconcile. unfold bind at 1.
  rewrite update_phase_eq. unfold need_update. rewrite Lst, Hst.
  unfold bind at 1.
  erewrite attachment_phase_real with (mb := B); [| congruence | | congruence].
  2:{ unfold need_attachment. rewrite Lmb, Hmb. simpl.
      apply negb_true_iff. by apply String.eqb_neq. }
  simpl. rewrite (proj2 (String.eqb_neq B "")) by done. simpl.
  unfold bind, ret. rewrite attach_eq. cbv zeta. rewrite Lrg, Hvm. done.
Qed.

(** X12.  A disk write that fails ends the run there.  With an update
    needed outside check mode, when the provider's create-or-update raises:
    a [CloudError] becomes the failure
    ["Error creating the managed disk: <message>"], any other exception
    leaves the module uncaught; either way the create-or-update call is
    the last call of the run: no vm is touched and nothing is deleted. *)
Theorem failed_disk_write_ends_run self w g di e w1 :
  self_check_mode self = false ->
  get_resource_group_result w (self_resource_group self) = inr g ->
  snapshot self w = Ok di ->
  need_update (located self g) di = true ->
  disks_create_or_update w (self_resource_group self) (self_name self)
    (generate_managed_disk_property (located self g)) = (inl e, w1) ->
  run (exec_module self) w
  = (match e with
     | CloudError _ msg => Fail ("Error creating the managed disk: " +:+ msg)
     | _ => Raise e
     end,
     (w1, reads self
          ++ [CallDisksCreateOrUpdate (self_resource_group self) (self_name self)
                (generate_managed_disk_property (located self g))])%list).
Proof.
  intros Hc Hrg Hsnap Hu Hcr.
  destruct (located_fields self g) as (Lrg & Lname & _ & _ & Lck).
  rewrite exec_module_start, Hrg, Hsnap.
  unfold reconcile. unfold bind at 1.
  rewrite update_phase_eq, Hu, Lck, Hc, Lrg, Lname. cbv zeta. rewrite Hcr.
  by destruct e.
Qed.

(** ** No [CloudError] leaves the module *)

Lemma no_CloudError_ret {A} (a : A) : raises_no_CloudError (W:=W) (ret a).
Proof. intros s e. unfold ret. simpl. discriminate. Qed.

Lemma no_CloudError_bind {A B} (m : M W A) (k : A -> M W B) :
  raises_no_CloudError m -> (forall a, raises_no_CloudError (k a)) ->
  raises_no_CloudError (bind m k).
Proof.
  intros Hm Hk s e. unfold bind. specialize (Hm s).
  destruct (m s) as [[a|msg|e'] s1]; simpl in *.
  - apply Hk.
  - discriminate.
  - intros [= <-]. by apply Hm.
Qed.

Lemma disk_get_error {A} disk (field : DiskDict -> A) e :
  disk_get disk field = inl e -> is_CloudError e = false.
Proof. destruct disk; simpl; intros; simplify_eq; done. Qed.

Lemma leftovers_of_error data disk e :
  leftovers_of data disk = inl e -> is_CloudError e = false.
Proof.
  induction data as [|x data IH]; simpl; [done|].
  destruct (dd_name x); [|by intros [= <-]].
  destruct (disk_get disk d_name) eqn:Hd; [intros [= <-]; by eapply disk_get_error|].
  destruct (leftovers_of data disk); [|done]. intros [= <-]. by apply IH.
Qed.

Lemma no_CloudError_get_managed_disk self : raises_no_CloudError (get_managed_disk self).
Proof.
  intros [w t] e. rewrite get_managed_disk_eq. simpl.
  destruct (disks_get w _ _) as [[]|]; simpl; intros; simplify_eq; done.
Qed.

Lemma no_CloudError_detach self vm_name disk :
  raises_no_CloudError (detach self vm_name disk).
Proof.
  intros [w t] e. rewrite detach_eq. cbv zeta.
  destruct (virtual_machines_get w _ vm_name) as [exc|vm]; [done|].
  destruct (data_disks vm) as [data|]; [|by intros [= <-]].
  destruct (leftovers_of data disk) as [e'|left] eqn:Hl;
    [intros [= <-]; by eapply leftovers_of_error|].
  destruct (length data =? length left)%nat.
  - destruct (disk_get disk d_name) eqn:Hd; simpl; [|done].
    intros [= <-]. by eapply disk_get_error.
  - simpl. destruct (virtual_machines_create_or_update w _ _ _) as [[|] ?]; done.
Qed.

Lemma no_CloudError_attach self vm_name disk :
  raises_no_CloudError (attach self vm_name disk).
Proof.
  intros [w t] e. rewrite attach_eq. cbv zeta.
  destruct (virtual_machines_get w _ vm_name) as [exc|vm]; [done|].
  destruct disk as [|d|]; try by intros [= <-].
  destruct (data_disks vm) as [l|]; [|by intros [= <-]].
  simpl. destruct (virtual_machines_create_or_update w _ _ _) as [[|] ?]; done.
Qed.

Lemma no_CloudError_update_phase self di : raises_no_CloudError (update_phase self di).
Proof.
  intros [w t] e. rewrite update_phase_eq.
  destruct (need_update self di); [|done].
  destruct (self_check_mode self); [done|]. simpl.
  destruct (disks_create_or_update w _ _ _) as [[[]|] ?]; simpl; intros; simplify_eq; done.
Qed.

Lemma no_CloudError_delete_phase self di cr :
  raises_no_CloudError (delete_phase self di cr).
Proof.
  intros [w t] e. rewrite delete_phase_eq.
  destruct (need_delete self di); [|done].
  destruct (self_check_mode self); [done|]. simpl.
  destruct (disks_delete w _ _) as [[[]|] ?]; simpl; intros; simplify_eq; done.
Qed.

Lemma no_CloudError_attachment_phase self di cr :
  raises_no_CloudError (attachment_phase self di cr).
Proof.
  unfold attachment_phase. destruct cr as [c r].
  destruct (self_managed_by self) as [mb|]; [|apply no_CloudError_ret].
  destruct (negb (String.eqb mb _)); [|apply no_CloudError_ret].
  destruct (negb (self_check_mode self)); [|apply no_CloudError_ret].
  apply no_CloudError_bind.
  { destruct (negb _); [apply no_CloudError_detach|apply no_CloudError_ret]. }
  intros _. apply no_CloudError_bind.
  { destruct (negb _); [apply no_CloudError_attach|apply no_CloudError_ret]. }
  intros _. apply no_CloudError_bind; [apply no_CloudError_get_managed_disk|].
  intros; apply no_CloudError_ret.
Qed.

(** X13.  Whatever exception ends a run uncaught, it is not a
    [CloudError]: the module turns every [CloudError] of the provider into
    the absent disk (on the disk read) or into a failure with a message (on
    every other call). *)
Theorem no_CloudError_leaves_exec_module self w e :
  (run (exec_module self) w).1 = Raise e -> is_CloudError e = false.
Proof.
  rewrite exec_module_start.
  destruct (get_resource_group_result w _) as [msg|g]; [done|].
  unfold snapshot. destruct (disks_get w _ _) as [[]|resp] eqn:Hget; simpl;
    try (intros [= <-]; done).
  - apply no_CloudError_bind; [apply no_CloudError_update_phase|]. intros cr1.
    apply no_CloudError_bind; [apply no_CloudError_attachment_phase|]. intros cr2.
    apply no_CloudError_bind; [apply no_CloudError_delete_phase|]. intros [c3 r3].
    apply no_CloudError_ret.
  - apply no_CloudError_bind; [apply no_CloudError_update_phase|]. intros cr1.
    apply no_CloudError_bind; [apply no_CloudError_attachment_phase|]. intros cr2.
    apply no_CloudError_bind; [apply no_CloudError_delete_phase|]. intros [c3 r3].
    apply no_CloudError_ret.
Qed.

(** ** An os type that never reads back as sent *)

(** X14.  When the string the SDK gives for the chosen os type is not
    lower-case, a run with [state=present] and [os_type] set always finds
    the disk different, whatever the provider holds:
    [managed_disk_to_dict] lower-cases the os type it reads and
    [is_different] compares it with the string sent.  Every run that
    returns reports [changed=true], and outside check mode the disk write
    is issued right after the two reads. *)
Theorem mixed_case_os_type_always_changes self w g di v :
  self_state self = present ->
  dp_os_type (generate_managed_disk_property self) = Some v ->
  v <> "" -> lower v <> v ->
  get_resource_group_result w (self_resource_group self) = inr g ->
  snapshot self w = Ok di ->
  (forall r s, run (exec_module self) w = (Ok r, s) -> changed r = true)
  /\ (self_check_mode self = false ->
      exists l,
        (run (exec_module self) w).2.2
        = (reads self
           ++ CallDisksCreateOrUpdate (self_resource_group self) (self_name self)
                (generate_managed_disk_property (located self g)) :: l)%list).
Proof.
  intros Hst Hv Hne Hlow Hrg Hsnap.
  destruct (located_fields self g) as (Lrg & Lname & Lst & _ & Lck).
  assert (Hu : need_update (located self g) di = true).
  { unfold need_update. rewrite Lst, Hst. destruct di as [found|]; [|done].
    unfold snapshot in Hsnap.
    destruct (disks_get w _ _) as [[]|resp]; simplify_eq.
    apply os_type_case_always_differs with v; try done.
    by rewrite generate_os_type_located. }
  rewrite exec_module_start, Hrg, Hsnap. split.
  - intros r s Hr. apply reconcile_Ok_changed in Hr. rewrite Hr.
    unfold predicted_changed. by rewrite Hu.
  - intros Hc. rewrite <- Lrg, <- Lname. apply reconcile_update_first; congruence.
Qed.

(** ** The new vm is left alone until the old one is written *)

Lemma appends_delete_phase_any self di cr :
  appends (fun _ => True) (delete_phase self di cr).
Proof.
  intros w t. destruct (delete_phase_trace self di cr w t) as (l3 & E & _).
  exists l3. split; [done|]. apply Forall_forall. done.
Qed.

(** What [detach] on vm [A] adds to the trace are calls on [A]; and when
    it returns, the write of [A] is among them and went through. *)
Lemma detach_calls self A disk w t :
  exists l,
    (detach self A disk (w, t)).2.2 = (t ++ l)%list
    /\ Forall (on_vm A) l
    /\ forall u, (detach self A disk (w, t)).1 = Ok u ->
        exists vm',
          In (CallVirtualMachinesCreateOrUpdate (self_resource_group self) A vm') l
          /\ (virtual_machines_create_or_update w (self_resource_group self) A vm').1
             = inr u.
Proof.
  rewrite detach_eq. cbv zeta.
  destruct (virtual_machines_get w _ A) as [exc|vm]; simpl.
  { eexists. split; [done|]. split; [repeat constructor|done]. }
  destruct (data_disks vm) as [data|]; simpl.
  2:{ eexists. split; [done|]. split; [repeat constructor|done]. }
  destruct (leftovers_of data disk) as [e|left]; simpl.
  { eexists. split; [done|]. split; [repeat constructor|done]. }
  destruct (length data =? length left)%nat; simpl.
  { eexists. split; [done|]. split; [repeat constructor|].
    destruct (disk_get disk d_name); done. }
  rewrite <- app_assoc. eexists. split; [done|]. split; [repeat constructor|].
  intros u Hu. eexists. split; [right; left; done|].
  destruct (virtual_machines_create_or_update w _ A _) as [[exc|u'] w1]; simpl in *;
    congruence.
Qed.

Lemma reconcile_reattach_shape self di w t B :
  self_check_mode self = false ->
  self_managed_by self = Some B ->
  current_vm_name di <> "" ->
  B <> current_vm_name di ->
  exists l1 lA post,
    (reconcile self di (w, t)).2.2 = (t ++ l1 ++ lA ++ post)%list
    /\ Forall is_disks_create_or_update l1
    /\ Forall (on_vm (current_vm_name di)) lA
    /\ (post = []
        \/ exists vm',
            In (CallVirtualMachinesCreateOrUpdate (self_resource_group self)
                  (current_vm_name di) vm') lA).
Proof.
  intros Hc Hmb HAne Hne.
  unfold reconcile. unfold bind at 1.
  destruct (update_phase_trace self di w t) as (l1 & E1 & F1).
  assert (F1' : Forall is_disks_create_or_update l1).
  { destruct F1 as [->|(_ & _ & ->)]; repeat constructor. }
  destruct (update_phase self di (w, t)) as [[[c1 r1]|msg|e] [w1 t1]];
    simpl in E1; subst t1;
    try (exists l1, [], []; simpl; rewrite !app_nil_r; split_and!; auto; fail).
  unfold bind at 1.
  erewrite attachment_phase_real with (mb := B); [| done | | done].
  2:{ unfold need_attachment. rewrite Hmb. apply negb_true_iff.
      by apply String.eqb_neq. }
  rewrite (proj2 (String.eqb_neq (current_vm_name di) "")) by done. simpl.
  unfold bind at 1.
  destruct (detach_calls self (current_vm_name di) r1 w1 (t ++ l1)) as (lA & EA & FA & HAok).
  destruct (detach self (current_vm_name di) r1 (w1, (t ++ l1)%list))
    as [[u|msg|e] [w2 t2]]; simpl in EA; subst t2;
    try (exists l1, lA, []; simpl; rewrite !app_nil_r, <- ?app_assoc; split_and!; auto; fail).
  destruct (HAok u eq_refl) as (vm' & Hin & _).
  assert (HX : appends (fun _ => True)
                 ((if negb (B =? "")%string then attach self B r1 else ret ());;;
                  r <- get_managed_disk self;; ret (true, result_of r))).
  { apply appends_bind.
    - destruct (negb _); [|apply appends_ret].
      eapply appends_weaken; [|apply appends_attach]. done.
    - intros _. apply appends_bind; [|intros; apply appends_ret].
      eapply appends_weaken; [|apply appends_get_managed_disk]. done. }
  destruct (HX w2 ((t ++ l1) ++ lA)%list) as (l3 & E3 & _).
  destruct (((if negb (B =? "")%string then attach self B r1 else ret ());;;
             r <- get_managed_disk self;; ret (true, result_of r))
              (w2, ((t ++ l1) ++ lA)%list)) as [[cr2|msg|e] [w3 t3]];
    simpl in E3; subst t3.
  2,3: exists l1, lA, l3; simpl; rewrite <- !app_assoc; split_and!; eauto.
  assert (HY : appends (fun _ => True)
                 (cr <- delete_phase self di cr2;;
                  (let '(changed0, result) := cr in
                   ret {| changed := changed0; state := result |}))).
  { apply appends_bind.
    - apply appends_delete_phase_any.
    - intros [c3 r3]. apply appends_ret. }
  destruct (HY w3 (((t ++ l1) ++ lA) ++ l3)%list) as (l4 & E4 & _).
  exists l1, lA, (l3 ++ l4)%list. rewrite E4, <- !app_assoc. split_and!; eauto.
Qed.

(** A call satisfying [Q] sits after every prefix that has none. *)
Lemma prefix_before_first (Q : Call -> Prop) P post pre c post' :
  (P ++ post)%list = (pre ++ c :: post')%list ->
  Forall (fun x => ~ Q x) P -> Q c ->
  exists k, pre = (P ++ k)%list.
Proof.
  revert pre. induction P as [|x P IH]; intros pre E F Hq.
  - by exists pre.
  - apply Forall_cons in F as [Hx F]. destruct pre as [|y pre]; simpl in E.
    + injection E as -> _. done.
    + injection E as -> E. destruct (IH pre E F Hq) as (k & ->). by exists k.
Qed.

(** X15.  Re-attaching from vm [A] to a different vm [B], outside check
    mode: in every run, however it ends, no call on [B], read or write,
    is issued before the write of [A] that detaches the disk.  A run
    whose detach step issues no write never touches [B]. *)
Theorem new_vm_untouched_until_detached self w resp A B :
  self_check_mode self = false ->
  disks_get w (self_resource_group self) (self_name self) = inr resp ->
  current_vm_name (Some (managed_disk_to_dict resp)) = A ->
  A <> "" ->
  self_managed_by self = Some B ->
  B <> A ->
  forall pre c post,
    (run (exec_module self) w).2.2 = (pre ++ c :: post)%list ->
    on_vm B c ->
    exists vm',
      In (CallVirtualMachinesCreateOrUpdate (self_resource_group self) A vm') pre.
Proof.
  intros Hc Hget HA HAne Hmb Hne pre c post.
  rewrite exec_module_start.
  destruct (get_resource_group_result w _) as [msg|g]; simpl.
  { intros E Hb. destruct pre as [|? [|? ?]]; simpl in E; simplify_eq. }
  unfold snapshot. rewrite Hget.
  destruct (located_fields self g) as (Lrg & Lname & Lst & Lmb & Lck).
  destruct (reconcile_reattach_shape (located self g)
              (Some (managed_disk_to_dict resp)) w (reads self) B)
    as (l1 & lA & post0 & -> & F1 & FA & Hpost); try congruence.
  rewrite HA, Lrg in *. intros E Hb.
  assert (Fpre : Forall (fun c => ~ on_vm B c) (reads self ++ l1 ++ lA)).
  { rewrite !Forall_app. split_and!.
    - repeat constructor; auto.
    - eapply Forall_impl; [exact F1|]. intros x Hx Hv. by destruct x.
    - eapply Forall_impl; [exact FA|]. intros x Hx Hv.
      destruct x; simpl in *; congruence. }
  rewrite !app_assoc in E. rewrite <- (app_assoc (reads self)) in E.
  destruct (prefix_before_first (on_vm B) _ _ _ _ _ E Fpre Hb) as (k & ->).
  destruct Hpost as [->|(vm' & Hin)].
  - rewrite app_nil_r, <- app_assoc in E. apply (f_equal length) in E.
    rewrite !length_app in E. simpl in E. lia.
  - exists vm'. apply in_or_app. left. apply in_or_app. right.
    apply in_or_app. by right.
Qed.

End CoverageProofs.

(** * The claims on concrete runs *)

Lemma fake_cloud_stores_what_is_written : stores_what_is_written (cloud := fake_cloud).
Proof.
  split.
  - intros w rg n p d w' H. simpl in H. simplify_eq. simpl. split; [done|].
    eexists. split; [done|]. simpl. auto.
  - intros w rg n u w' H. simpl in H. destruct (fw_disk w); simplify_eq.
    simpl. split; [done|]. by exists 404, "ResourceNotFound".
Qed.

(** C1, as stated, fails: a declared size of 0 that differs from the
    current 4 GB is not reported as a difference. *)
Lemma is_different_ignores_zero_size :
  let found := managed_disk_to_dict (bare_disk "d1" (Some 4) None) in
  let new := generate_managed_disk_property (disk_args present None (Some 0) None false) in
  spec_is_different found new /\ is_different found new = false.
Proof.
  split; [|reflexivity]. left. exists 0. split; [reflexivity|discriminate].
Qed.

Lemma is_different_iff_declared_diff_witness :
  run (exec_module (disk_args present None (Some 4) None true)) world_absent
  = (Ok {| changed := true; state := RTrue |},
     (world_absent, reads (disk_args present None (Some 4) None true))).
Proof.
  apply (proj1 (proj2
           (proj2 (proj2 (@is_different_iff_declared_diff fake_sdk FakeWorld fake_cloud))
              (disk_args present None (Some 4) None true) world_absent eastus
              404 "ResourceNotFound" eq_refl eq_refl eq_refl)) eq_refl).
Defined.



(** C3, as stated, fails: a first run that finds the disk as desired
    reports [changed=false]. *)
Lemma first_run_may_report_unchanged :
  exists st w' t,
    run (exec_module (disk_args present (Some Standard_LRS) (Some 4) None false))
      world_unattached
    = (Ok {| changed := false; state := st |}, (w', t)).
Proof. vm_compute. eauto. Qed.

Lemma second_run_reports_unchanged_witness :
  let self := disk_args present None (Some 4) None false in
  let first := run (exec_module self) world_absent in
  (exists st,
      run (exec_module self) first.2.1
      = (Ok {| changed := false; state := st |}, (first.2.1, reads self)))
  /\ (Exists (fun c => mutating c = true) first.2.2).
Proof.
  intros self first.
  pose proof (@second_run_reports_unchanged fake_sdk FakeWorld fake_cloud self world_absent
                {| changed := true;
                   state := RDict (managed_disk_to_dict
                                     (fake_disk world_absent "rg1" "d1"
                                        (generate_managed_disk_property
                                           (located self eastus)))) |}
                first.2.1 first.2.2
                fake_cloud_stores_what_is_written eq_refl eq_refl
                ltac:(intros v Hv; discriminate Hv) eq_refl) as [H1 H2].
  split; [exact H1|]. apply H2. reflexivity.
Defined.

(** C4, as stated, fails: in check mode the disk attached to [vmA] and
    wanted on [vmB] leads to no vm write at all. *)
Lemma check_mode_reattach_writes_no_vm :
  let self := disk_args present (Some Standard_LRS) (Some 4) (Some "vmB") true in
  current_vm_name
    (Some (managed_disk_to_dict
             (bare_disk "d1" (Some 4) (Some "/resourceGroups/rg1/virtualMachines/vmA"))))
  = "vmA"
  /\ run (exec_module self) world_attached
     = (Ok {| changed := true;
              state := RDict (managed_disk_to_dict
                                (bare_disk "d1" (Some 4)
                                   (Some "/resourceGroups/rg1/virtualMachines/vmA"))) |},
        (world_attached, reads self))
  /\ List.filter is_vm_write (run (exec_module self) world_attached).2.2 = [].
Proof. by vm_compute. Qed.

Lemma reattach_detaches_then_attaches_witness :
  let self := disk_args present (Some Standard_LRS) (Some 4) (Some "vmB") false in
  exists g w1 vmA' dataA lA wa vmB' lB e,
    get_resource_group_result world_attached "rg1" = inr g
    /\ (w1 = world_attached
        \/ exists aux,
            disks_create_or_update world_attached "rg1" "d1"
              (generate_managed_disk_property (located self g)) = (inr aux, w1))
    /\ virtual_machines_get w1 "rg1" "vmA" = inr vmA'
    /\ data_disks vmA' = Some dataA
    /\ (length lA < length dataA)%nat
    /\ virtual_machines_create_or_update w1 "rg1" "vmA"
         {| vm_id := vm_id vmA'; data_disks := Some lA |} = (inr tt, wa)
    /\ virtual_machines_get wa "rg1" "vmB" = inr vmB'
    /\ data_disks vmB' = Some lB
    /\ List.filter is_vm_write (run (exec_module self) world_attached).2.2
       = [CallVirtualMachinesCreateOrUpdate "rg1" "vmA"
            {| vm_id := vm_id vmA'; data_disks := Some lA |};
          CallVirtualMachinesCreateOrUpdate "rg1" "vmB"
            {| vm_id := vm_id vmB'; data_disks := Some (lB ++ [e])%list |}]
    /\ dd_create_option e = DCOT_attach
    /\ (lB = [] -> lun e = 0)
    /\ (lB <> [] ->
        (exists x, In x lB /\ lun e = lun x + 1)
        /\ forall x, In x lB -> lun x < lun e).
Proof.
  intros self.
  exact (proj2
           (@reattach_detaches_then_attaches fake_sdk FakeWorld fake_cloud self world_attached
              (bare_disk "d1" (Some 4) (Some "/resourceGroups/rg1/virtualMachines/vmA"))
              "vmA" "vmB"
              {| changed := true;
                 state := RDict (managed_disk_to_dict
                                   (bare_disk "d1" (Some 4)
                                      (Some "/resourceGroups/rg1/virtualMachines/vmA"))) |}
              (run (exec_module self) world_attached).2.1
              (run (exec_module self) world_attached).2.2
              eq_refl eq_refl eq_refl eq_refl
              ltac:(discriminate) ltac:(discriminate) ltac:(discriminate) eq_refl)).
Defined.

Lemma detach_removes_matching_entries_witness :
  let self := disk_args present None (Some 4) (Some "") false in
  let d := managed_disk_to_dict (bare_disk "d1" (Some 4) None) in
  detach self "vmA" (RDict d) (world_attached, [])
  = (Ok tt,
     ({| fw_location := Some "eastus";
         fw_disk := fw_disk world_attached;
         fw_vms :=
           <["vmA" := {| vm_id := "vmA"; data_disks := Some [entry "other" 0] |}]>
             (fw_vms world_attached) |},
      [CallVirtualMachinesGet "rg1" "vmA";
       CallVirtualMachinesCreateOrUpdate "rg1" "vmA"
         {| vm_id := "vmA"; data_disks := Some [entry "other" 0] |}])).
Proof.
  intros self d.
  apply (proj2
           (@detach_removes_matching_entries FakeWorld fake_cloud self "vmA" d
              world_attached [] vmA [entry "other" 0; entry "D1" 1]
              eq_refl eq_refl
              ltac:(repeat constructor; eexists; reflexivity))).
  apply Exists_cons_tl, Exists_cons_hd. reflexivity.
Defined.

(** C6, as stated, fails: with [state=absent] and no disk, a supplied
    [managed_by] makes the check-mode run report [changed=true]. *)
Lemma absent_disk_reported_changed :
  run (exec_module (disk_args absent None None (Some "vmB") true)) world_absent
  = (Ok {| changed := true; state := RNone |},
     (world_absent, reads (disk_args absent None None (Some "vmB") true))).
Proof. reflexivity. Qed.

Lemma absent_state_deletes_witness :
  run (exec_module (disk_args absent None None None false)) world_unattached
  = (Ok {| changed := true; state := RTrue |},
     ({| fw_location := Some "eastus"; fw_disk := inl not_found;
         fw_vms := fw_vms world_unattached |},
      reads (disk_args absent None None None false) ++ [CallDisksDelete "rg1" "d1"])%list).
Proof.
  apply (proj1
           (proj1
              (@absent_state_deletes fake_sdk FakeWorld fake_cloud
                 (disk_args absent None None None false) world_unattached eastus
                 eq_refl eq_refl)
              (bare_disk "d1" (Some 4) None) eq_refl
              ltac:(intros mb Hmb; discriminate Hmb)) eq_refl).
  reflexivity.
Defined.

Lemma dry_run_equivalence_witness :
  exists r',
    (run (exec_module
            (set_check_mode (disk_args present None (Some 8) (Some "vmB") false) true))
       world_attached).1 = Ok r'
    /\ changed r' = true.
Proof.
  apply (proj2 (proj2
           (@dry_run_equivalence fake_sdk FakeWorld fake_cloud
              (disk_args present None (Some 8) (Some "vmB") false) world_attached))
           {| changed := true;
              state := match (run (exec_module
                                     (disk_args present None (Some 8) (Some "vmB") false))
                                world_attached).1 with
                       | Ok r => state r
                       | _ => RNone
                       end |}
           (run (exec_module (disk_args present None (Some 8) (Some "vmB") false))
              world_attached).2).
  reflexivity.
Defined.

(** C8, as stated, fails: a read refused with status 403 is taken for an
    absent disk, and the run goes on to create it. *)
Lemma forbidden_read_taken_for_absent :
  let self := disk_args present None (Some 4) None false in
  run (get_managed_disk self) world_forbidden
  = (Ok None, (world_forbidden, [CallDisksGet "rg1" "d1"]))
  /\ exists st w',
      run (exec_module self) world_forbidden
      = (Ok {| changed := true; state := st |},
         (w', reads self
              ++ [CallDisksCreateOrUpdate "rg1" "d1"
                    (generate_managed_disk_property (located self eastus))])%list).
Proof. split; [reflexivity|]. vm_compute. eauto. Qed.

Lemma get_managed_disk_outcomes_witness :
  let self := disk_args present None (Some 4) None false in
  let w :=
    {| fw_location := Some "eastus"; fw_disk := inl (OtherException "connection reset");
       fw_vms := ∅ |} in
  run (exec_module self) w = (Raise (OtherException "connection reset"), (w, reads self)).
Proof.
  intros self w.
  apply (proj2 (proj1 (proj2
           (@get_managed_disk_outcomes fake_sdk FakeWorld fake_cloud self w []))
           (OtherException "connection reset") eq_refl eq_refl) eastus eq_refl).
Defined.




(** * The further properties on concrete runs *)

Lemma managed_disk_to_dict_normalised_witness :
  let d := managed_disk_to_dict
             (fake_disk world_absent "rg1" "d1"
                (generate_managed_disk_property (located linux_args eastus))) in
  d_os_type d = Some "linux" /\ lower "linux" = "linux".
Proof.
  intros d. split; [reflexivity|].
  exact (proj2 (proj1 (managed_disk_to_dict_normalised
                         (fake_disk world_absent "rg1" "d1"
                            (generate_managed_disk_property (located linux_args eastus))))
                  "linux" eq_refl)).
Defined.

Lemma source_uri_round_trip_witness :
  let self := located import_blob_args eastus in
  d_source_uri
    (managed_disk_to_dict
       (fake_disk world_absent "rg1" "d1" (generate_managed_disk_property self)))
  = Some "https://account.blob.core.windows.net/vhds/d1.vhd".
Proof.
  intros self.
  exact (proj1 (@source_uri_round_trip fake_sdk self
                  (fake_disk world_absent "rg1" "d1" (generate_managed_disk_property self))
                  (conj eq_refl eq_refl))
           (or_introl eq_refl) eq_refl).
Defined.

Lemma changed_iff_mutating_call_witness :
  let self := disk_args present None (Some 4) None false in
  Exists (fun c => mutating c = true) (run (exec_module self) world_absent).2.2.
Proof.
  intros self.
  exact (proj1 (@changed_iff_mutating_call fake_sdk FakeWorld fake_cloud self world_absent
                  {| changed := true;
                     state := RDict (managed_disk_to_dict
                                       (fake_disk world_absent "rg1" "d1"
                                          (generate_managed_disk_property
                                             (located self eastus)))) |}
                  (run (exec_module self) world_absent).2.1
                  (run (exec_module self) world_absent).2.2
                  eq_refl eq_refl)
           eq_refl).
Defined.

Lemma empty_managed_by_detaches_only_witness :
  let self := disk_args present None (Some 4) (Some "") false in
  let t := (run (exec_module self) world_attached).2.2 in
  Forall (fun c => is_vm_call c -> on_vm "vmA" c) t
  /\ exists w1 vm data leftovers,
      (w1 = world_attached
       \/ exists p aux,
           disks_create_or_update world_attached "rg1" "d1" p = (inr aux, w1))
      /\ virtual_machines_get w1 "rg1" "vmA" = inr vm
      /\ data_disks vm = Some data
      /\ (length leftovers < length data)%nat
      /\ List.filter is_vm_write t
         = [CallVirtualMachinesCreateOrUpdate "rg1" "vmA"
              {| vm_id := vm_id vm; data_disks := Some leftovers |}].
Proof.
  intros self t.
  exact (@empty_managed_by_detaches_only fake_sdk FakeWorld fake_cloud self world_attached
           (bare_disk "d1" (Some 4) (Some "/resourceGroups/rg1/virtualMachines/vmA"))
           "vmA"
           {| changed := true;
              state := RDict (managed_disk_to_dict
                                (bare_disk "d1" (Some 4)
                                   (Some "/resourceGroups/rg1/virtualMachines/vmA"))) |}
           (run (exec_module self) world_attached).2.1 t
           eq_refl eq_refl eq_refl ltac:(discriminate) eq_refl eq_refl).
Defined.

Lemma unattached_disk_attaches_only_witness :
  let self := disk_args present None (Some 4) (Some "vmB") false in
  let t := (run (exec_module self) world_unattached).2.2 in
  Forall (fun c => is_vm_call c -> on_vm "vmB" c) t
  /\ exists w1 vm l d,
      (w1 = world_unattached
       \/ exists p aux,
           disks_create_or_update world_unattached "rg1" "d1" p = (inr aux, w1))
      /\ virtual_machines_get w1 "rg1" "vmB" = inr vm
      /\ data_disks vm = Some l
      /\ List.filter is_vm_write t
         = [CallVirtualMachinesCreateOrUpdate "rg1" "vmB"
              {| vm_id := vm_id vm;
                 data_disks := Some (l ++ [new_data_disk vm d])%list |}].
Proof.
  intros self t.
  exact (@unattached_disk_attaches_only fake_sdk FakeWorld fake_cloud self world_unattached
           (bare_disk "d1" (Some 4) None) "vmB"
           {| changed := true;
              state := RDict (managed_disk_to_dict (bare_disk "d1" (Some 4) None)) |}
           (run (exec_module self) world_unattached).2.1 t
           eq_refl eq_refl eq_refl eq_refl ltac:(discriminate) eq_refl).
Defined.

Lemma attachment_change_returns_fresh_read_witness :
  let self := disk_args present None (Some 4) (Some "vmB") false in
  let w' := (run (exec_module self) world_attached).2.1 in
  exists di',
    snapshot self w' = Ok di'
    /\ RDict (managed_disk_to_dict
                (bare_disk "d1" (Some 4) (Some "/resourceGroups/rg1/virtualMachines/vmA")))
       = result_of di'.
Proof.
  intros self w'.
  exact (@attachment_change_returns_fresh_read fake_sdk FakeWorld fake_cloud self
           world_attached
           {| changed := true;
              state := RDict (managed_disk_to_dict
                                (bare_disk "d1" (Some 4)
                                   (Some "/resourceGroups/rg1/virtualMachines/vmA"))) |}
           w' (run (exec_module self) world_attached).2.2 "vmB"
           (Some (managed_disk_to_dict
                    (bare_disk "d1" (Some 4)
                       (Some "/resourceGroups/rg1/virtualMachines/vmA"))))
           eq_refl eq_refl eq_refl eq_refl ltac:(discriminate) eq_refl).
Defined.

Lemma omitted_managed_by_touches_no_vm_witness :
  let self := disk_args absent None None None false in
  Forall (fun c => ~ is_vm_call c) (run (exec_module self) world_attached).2.2
  /\ (length (List.filter is_disk_read (run (exec_module self) world_attached).2.2)
      <= 1)%nat.
Proof.
  intros self.
  exact (@omitted_managed_by_touches_no_vm fake_sdk FakeWorld fake_cloud self
           world_attached eq_refl).
Defined.

Lemma state_rules_out_the_other_write_witness :
  let self := disk_args absent None None (Some "vmB") false in
  Forall (fun c => ~ is_disks_create_or_update c)
    (run (exec_module self) world_attached).2.2.
Proof.
  intros self.
  exact (proj2 (@state_rules_out_the_other_write fake_sdk FakeWorld fake_cloud self
                  world_attached) eq_refl).
Defined.

Lemma attach_appends_entry_with_fresh_lun_witness :
  let self := disk_args present None (Some 4) (Some "vmB") false in
  let d := managed_disk_to_dict (bare_disk "d1" (Some 4) None) in
  exists e,
    (attach self "vmB" (RDict d) (world_unattached, [])).2
    = ((virtual_machines_create_or_update world_unattached "rg1" "vmB"
          {| vm_id := "vmB";
             data_disks := Some ([entry "x" 3; entry "y" 1] ++ [e])%list |}).2,
       ([] ++ [CallVirtualMachinesGet "rg1" "vmB";
               CallVirtualMachinesCreateOrUpdate "rg1" "vmB"
                 {| vm_id := "vmB";
                    data_disks := Some ([entry "x" 3; entry "y" 1] ++ [e])%list |}])%list)
    /\ dd_managed_disk e
       = Some {| mdp_id := Some (d_id d);
                 mdp_storage_account_type := d_storage_account_type d |}
    /\ dd_name e = None
    /\ Forall (fun x => lun x <> lun e) [entry "x" 3; entry "y" 1].
Proof.
  intros self d.
  exact (@attach_appends_entry_with_fresh_lun FakeWorld fake_cloud self "vmB" d
           world_unattached [] vmB [entry "x" 3; entry "y" 1] eq_refl eq_refl).
Defined.

Lemma attach_of_absent_disk_raises_witness :
  let self := disk_args absent None None (Some "vmB") false in
  run (exec_module self) world_absent_vmB
  = (Raise (AttributeError "'NoneType' object has no attribute 'get'"),
     (world_absent_vmB, reads self ++ [CallVirtualMachinesGet "rg1" "vmB"])%list).
Proof.
  intros self.
  exact (@attach_of_absent_disk_raises fake_sdk FakeWorld fake_cloud self world_absent_vmB
           eastus 404 "ResourceNotFound" "vmB" vmB
           eq_refl eq_refl eq_refl ltac:(discriminate) eq_refl eq_refl eq_refl).
Defined.

Lemma failed_disk_write_ends_run_witness :
  let self := disk_args present None (Some 8) (Some "vmB") false in
  @run FakeWorld _ (@exec_module fake_sdk FakeWorld readonly_cloud self) world_unattached
  = (Fail "Error creating the managed disk: Conflict",
     (world_unattached,
      reads self
      ++ [CallDisksCreateOrUpdate "rg1" "d1"
            (generate_managed_disk_property (located self eastus))])%list).
Proof.
  intros self.
  exact (@failed_disk_write_ends_run fake_sdk FakeWorld readonly_cloud self world_unattached
           eastus (Some (managed_disk_to_dict (bare_disk "d1" (Some 4) None)))
           conflict world_unattached
           eq_refl eq_refl eq_refl eq_refl eq_refl).
Defined.

Lemma no_CloudError_leaves_exec_module_witness :
  let self := disk_args present None (Some 4) None false in
  (run (exec_module self) world_broken).1 = Raise (OtherException "connection reset")
  /\ is_CloudError (OtherException "connection reset") = false.
Proof.
  intros self. split; [reflexivity|].
  exact (@no_CloudError_leaves_exec_module fake_sdk FakeWorld fake_cloud self world_broken
           (OtherException "connection reset") eq_refl).
Defined.

Lemma mixed_case_os_type_always_changes_witness :
  let self := linux_args in
  let w := (run (exec_module self) world_absent).2.1 in
  (forall r s, run (exec_module self) w = (Ok r, s) -> changed r = true)
  /\ exists l,
      (run (exec_module self) w).2.2
      = (reads self
         ++ CallDisksCreateOrUpdate "rg1" "d1"
              (generate_managed_disk_property (located self eastus)) :: l)%list.
Proof.
  intros self w.
  pose proof (@mixed_case_os_type_always_changes fake_sdk FakeWorld fake_cloud self w
                eastus
                (Some (managed_disk_to_dict
                         (fake_disk world_absent "rg1" "d1"
                            (generate_managed_disk_property (located self eastus)))))
                "Linux"
                eq_refl eq_refl ltac:(discriminate) ltac:(vm_compute; discriminate)
                eq_refl eq_refl) as [H1 H2].
  exact (conj H1 (H2 eq_refl)).
Defined.

Lemma new_vm_untouched_until_detached_witness :
  let self := disk_args present None (Some 4) (Some "vmB") false in
  let t := (run (exec_module self) world_attached).2.2 in
  exists vm', In (CallVirtualMachinesCreateOrUpdate "rg1" "vmA" vm') (take 4 t).
Proof.
  intros self t.
  exact (@new_vm_untouched_until_detached fake_sdk FakeWorld fake_cloud self world_attached
           (bare_disk "d1" (Some 4) (Some "/resourceGroups/rg1/virtualMachines/vmA"))
           "vmA" "vmB"
           eq_refl eq_refl eq_refl ltac:(discriminate) eq_refl ltac:(discriminate)
           (take 4 t) (CallVirtualMachinesGet "rg1" "vmB") (drop 5 t)
           eq_refl eq_refl).
Defined.
